(** * vsphere-graphite: the collection-and-dispatch pipeline of [Manage]

    A shallow embedding of [src/vsphere-graphite.go].  The Go program has one
    long function, [Service.Manage], whose tail is a [for { select { ... } }]
    loop over four channels.  The embedding keeps that shape:

    - the packages [backend], [config] and [vsphere], which the file imports
      but which are not part of the sources at hand, become three modules
      holding the declarations [Manage] relies on;
    - everything the program does to the outside world (log lines, backend
      calls, timers, goroutines) is recorded, in program order, in a list of
      [Call]s;
    - the [select] statement receives its events from the runtime; the
      sequence of events it delivers is an input of the model ([selected]),
      and the loop is a structural recursion over it. *)

From stdpp Require Import base strings list.
From Stdlib Require Import ZArith Lia.

Open Scope string_scope.
Open Scope list_scope.

(** ** Imported packages *)

(** Go's [error] interface: [None] is [nil], [Some msg] an error value. *)
Definition error : Type := option string.

Module backend.

(** Modelled from the spec: [backend.Point] is declared in package
    [backend], whose source is not at hand.  Section 3 of the
    specification gives its attributes: a metric name/path, a numeric
    value, a timestamp and key/value tags. *)
Record Point : Type := mkPoint {
  Name : string;
  Value : Z;
  Timestamp : Z;
  Tags : list (string * string)
}.

(** [backend.Point{}], the composite literal with every field at its zero
    value. *)
Definition zero : Point :=
  {| Name := ""; Value := 0; Timestamp := 0; Tags := [] |}.

(** Modelled from the spec: the type of [config.Backend], with the
    capability contract of section 6, [init(loggers) -> error] and
    [sendMetrics(sequence of Point) -> error].  What the remote store
    answers is not decided by this program, so the value carries a script:
    the result of [Init], and the results of the successive [SendMetrics]
    calls (a call past the end of the script succeeds). *)
Record Backend : Type := mkBackend {
  InitResult : error;
  SendResults : list error
}.

Definition Init (b : Backend) : error := InitResult b.

Definition SendMetrics (b : Backend) (batch : list Point) : Backend * error :=
  match SendResults b with
  | [] => (b, None)
  | r :: rs => ({| InitResult := InitResult b; SendResults := rs |}, r)
  end.

End backend.

Module vsphere.

(** Modelled from the spec: [vsphere.VCenter] is declared in package
    [vsphere], not at hand; a Source is "one configured virtualization
    endpoint plus its credentials". *)
Record VCenter : Type := mkVCenter {
  Hostname : string;
  Username : string;
  Password : string
}.

End vsphere.

Module config.

(** Modelled from the spec: [config.Configuration] is declared in package
    [config], not at hand.  These are the fields [Manage] reads. *)
Record Configuration : Type := mkConfiguration {
  VCenters : list vsphere.VCenter;
  Metrics : list string;
  Interval : Z;
  Domain : string;
  Backend : backend.Backend;
  FlushSize : Z;
  Profiling : bool
}.

Definition withFlushSize (c : Configuration) (n : Z) : Configuration :=
  {| VCenters := VCenters c; Metrics := Metrics c; Interval := Interval c;
     Domain := Domain c; Backend := Backend c; FlushSize := n;
     Profiling := Profiling c |}.

Definition withBackend (c : Configuration) (b : backend.Backend) : Configuration :=
  {| VCenters := VCenters c; Metrics := Metrics c; Interval := Interval c;
     Domain := Domain c; Backend := b; FlushSize := FlushSize c;
     Profiling := Profiling c |}.

End config.

(** ** Signals, events and observable calls *)

(** The three signals registered by
    [signal.Notify(interrupt, os.Interrupt, os.Kill, syscall.SIGTERM)]. *)
Inductive Signal : Type := os_Interrupt | os_Kill | SIGTERM.

Global Instance Signal_eq_dec : EqDecision Signal.
Proof. solve_decision. Defined.

(** One case of the [select] statement being taken. *)
Inductive Event : Type :=
| metrics (value : backend.Point)      (* case value := <-metrics *)
| ticker                               (* case <-ticker.C *)
| memtimer (Sys : Z)                   (* case <-memtimer.C, with the
                                          memstats.Sys that ReadMemStats reads *)
| interrupt (killSignal : Signal).     (* case killSignal := <-interrupt *)

Inductive Timer : Type := the_ticker | the_memtimer.

(** Lines written through [stdlog], [errlog] and [fmt.Println]. *)
Inductive Line : Type :=
| StartingDaemon (prog : string)       (* "Starting daemon:" base(os.Args[0]) *)
| WillWriteProfile                     (* "Will write cpu profiling to: " name *)
| RetrievingMetrics                    (* "Retrieving metrics" *)
| SentLogs (n : nat)                   (* "Sent %d logs to backend" *)
| MemoryUsage (Sys : Z)                (* "Memory usage :" ByteSize(memstats.Sys) *)
| GotSignal (s : Signal)               (* "Got signal:" killSignal *)
| ErrorLine (status : option string) (err : string) (* [status] "Error: " err *)
| FatalLine (msg : string) (err : string). (* log.Fatal(msg, err) *)

Inductive Call : Type :=
| Stdlog (l : Line)
| Errlog (l : Line)
| Println (s : string)
| ServiceCall (method : string)
| VCenterInit (v : vsphere.VCenter) (ms : list string)
| BackendInit (res : error)
| BackendDisconnect
| BackendSendMetrics (batch : list backend.Point) (res : error)
| SignalNotify
| MakeChan (capacity : Z)
| NewTicker (t : Timer) (d : Z)
| StopTicker (t : Timer)
| GoQuery (v : vsphere.VCenter) (interval : Z) (domain : string)
| RuntimeGC
| ReadMemStats
| StartCPUProfile (res : error)
| StopCPUProfile.

(** The batches handed to the backend in a trace, in call order. *)
Fixpoint batches (tr : list Call) : list (list backend.Point) :=
  match tr with
  | [] => []
  | BackendSendMetrics batch _ :: tr' => batch :: batches tr'
  | _ :: tr' => batches tr'
  end.

(** The results the backend gave to those calls. *)
Fixpoint send_results (tr : list Call) : list error :=
  match tr with
  | [] => []
  | BackendSendMetrics _ res :: tr' => res :: send_results tr'
  | _ :: tr' => send_results tr'
  end.

(** The counts announced by "Sent %d logs to backend". *)
Fixpoint sent_counts (tr : list Call) : list nat :=
  match tr with
  | [] => []
  | Stdlog (SentLogs n) :: tr' => n :: sent_counts tr'
  | _ :: tr' => sent_counts tr'
  end.

(** The Points delivered by the [metrics] channel in a run of events. *)
Fixpoint arrivals (evs : list Event) : list backend.Point :=
  match evs with
  | [] => []
  | metrics value :: evs' => value :: arrivals evs'
  | _ :: evs' => arrivals evs'
  end.

Definition is_interrupt (ev : Event) : bool :=
  match ev with interrupt _ => true | _ => false end.

(** No termination signal among the events. *)
Definition quiet (evs : list Event) : bool := forallb (fun ev => negb (is_interrupt ev)) evs.

(** ** The consuming loop (lines 170-207) *)

(** [func queryVCenter(vcenter, config, channel)], started with [go]. *)
Definition queryVCenter (vcenter : vsphere.VCenter) (cfg : config.Configuration) : Call :=
  GoQuery vcenter (config.Interval cfg) (config.Domain cfg).

(** [stdlog.Println("Retrieving metrics")] followed by one
    [go queryVCenter] per configured vCenter
    (lines 162-165 and 188-191). *)
Definition retrieve (cfg : config.Configuration) : list Call :=
  Stdlog RetrievingMetrics :: map (fun v => queryVCenter v cfg) (config.VCenters cfg).

(** The variables the loop mutates: [pointbuffer], [bufferindex], and the
    backend object behind [config.Backend]. *)
Record Loop : Type := mkLoop {
  pointbuffer : list backend.Point;
  bufferindex : nat;
  Backend : backend.Backend
}.

(** How one iteration ends: the [for] goes round again, [Manage] returns,
    or an index is out of range and the goroutine panics. *)
Inductive Next : Type :=
| Continue (st : Loop)
| Return (status : string) (err : error)
| Panic.

(** [for i := 0; i < len(pointbuffer); i++ { pointbuffer[i] = backend.Point{} }],
    with [n] the iterations that remain. *)
Fixpoint reset_from (n i : nat) (buf : list backend.Point) : list backend.Point :=
  match n with
  | O => buf
  | S n' => reset_from n' (S i) (<[i := backend.zero]> buf)
  end.

Definition reset (buf : list backend.Point) : list backend.Point :=
  reset_from (length buf) 0 buf.

(** The status [Manage] returns for a signal. *)
Definition status_of (killSignal : Signal) : string :=
  if decide (killSignal = os_Interrupt)
  then "Daemon was interrupted by system signal"
  else "Daemon was killed".

(** One iteration of the [select]. *)
Definition step (cfg : config.Configuration) (st : Loop) (ev : Event) : list Call * Next :=
  match ev with
  | metrics value =>
      if decide (bufferindex st < length (pointbuffer st)) then
        let buf := <[bufferindex st := value]> (pointbuffer st) in
        let idx := S (bufferindex st) in
        if decide (idx = length buf) then
          let '(b, res) := backend.SendMetrics (Backend st) buf in
          ([BackendSendMetrics buf res; Stdlog (SentLogs (length buf))],
           Continue {| pointbuffer := reset buf; bufferindex := 0; Backend := b |})
        else
          ([], Continue {| pointbuffer := buf; bufferindex := idx; Backend := Backend st |})
      else ([], Panic)
  | ticker => (retrieve cfg, Continue st)
  | memtimer Sys =>
      ([RuntimeGC; ReadMemStats; Stdlog (MemoryUsage Sys)], Continue st)
  | interrupt killSignal =>
      if decide (0 < bufferindex st) then
        if decide (bufferindex st <= length (pointbuffer st)) then
          let '(_, res) := backend.SendMetrics (Backend st) (take (bufferindex st) (pointbuffer st)) in
          ([Stdlog (GotSignal killSignal);
            BackendSendMetrics (take (bufferindex st) (pointbuffer st)) res;
            Stdlog (SentLogs (bufferindex st))],
           Return (status_of killSignal) None)
        else ([Stdlog (GotSignal killSignal)], Panic)
      else ([Stdlog (GotSignal killSignal)], Return (status_of killSignal) None)
  end.

(** How [Manage] (or the process) ends. *)
Inductive Outcome : Type :=
| Returned (status : string) (err : error)
| Fatal                      (* log.Fatal: os.Exit(1), deferred calls skipped *)
| Panicked                   (* a run-time panic *)
| Waiting (st : Loop).       (* blocked in the select, no event left *)

(** The [for { select { ... } }] loop over the events the runtime delivers. *)
Fixpoint run (cfg : config.Configuration) (st : Loop) (evs : list Event) : list Call * Outcome :=
  match evs with
  | [] => ([], Waiting st)
  | ev :: evs' =>
      match step cfg st ev with
      | (tr, Continue st') =>
          let '(tr', out) := run cfg st' evs' in (tr ++ tr', out)
      | (tr, Return status err) => (tr, Returned status err)
      | (tr, Panic) => (tr, Panicked)
      end
  end.

(** [pointbuffer := make([]backend.Point, config.FlushSize); bufferindex := 0] *)
Definition start (n : nat) (b : backend.Backend) : Loop :=
  {| pointbuffer := replicate n backend.zero; bufferindex := 0; Backend := b |}.

(** ** Start-up (lines 57-169) and [main] *)

(** What the operating system, the service manager and the configuration
    file answer to the program. *)
Record World : Type := mkWorld {
  Args : list string;                       (* os.Args *)
  daemonNew : error;                        (* daemon.New(name, description, ...) *)
  Install : string * error;                 (* the embedded daemon.Daemon *)
  Remove : string * error;
  Start : string * error;
  Stop : string * error;
  Status : string * error;
  Open : error;                             (* os.Open("/etc/" + base + ".json") *)
  Decode : string + config.Configuration;   (* jsondec.Decode(&config) *)
  TempFile : error;                         (* ioutil.TempFile *)
  StartProfile : error;                     (* pprof.StartCPUProfile *)
  Getenv : backend.Backend -> backend.Backend;
    (* lines 110-132: the exported string and int fields of config.Backend
       overwritten from the environment; the fields are declared in package
       backend, so the rewriting is taken as given *)
  selected : list Event                     (* what the select receives *)
}.

Definition usage : string :=
  "Usage: vsphere-graphite install | remove | start | stop | status".

(** [switch command { ... }], lines 64-77. *)
Definition dispatch (w : World) (command : string) : list Call * (string * error) :=
  if decide (command = "install") then ([ServiceCall "Install"], Install w)
  else if decide (command = "remove") then ([ServiceCall "Remove"], Remove w)
  else if decide (command = "start") then ([ServiceCall "Start"], Start w)
  else if decide (command = "stop") then ([ServiceCall "Stop"], Stop w)
  else if decide (command = "status") then ([ServiceCall "Status"], Status w)
  else ([], (usage, None)).

(** Go's [int64] arithmetic wraps around. *)
Definition wrap64 (z : Z) : Z := ((z + 2 ^ 63) mod 2 ^ 64 - 2 ^ 63)%Z.

(** [time.Second], in nanoseconds. *)
Definition Second : Z := 1000000000.

(** Lines 98-108.  The result is the trace, an outcome when the block ends
    the process, and the calls it defers.  When [ioutil.TempFile] fails [f]
    is nil and [f.Name()] dereferences it before [log.Fatal] is reached. *)
Definition profiling (w : World) (cfg : config.Configuration)
  : list Call * option Outcome * list Call :=
  if config.Profiling cfg then
    match TempFile w with
    | Some _ => ([], Some Panicked, [])
    | None =>
        match StartProfile w with
        | Some err =>
            ([Stdlog WillWriteProfile; StartCPUProfile (Some err);
              Errlog (FatalLine "could not start CPU profile: " err)],
             Some Fatal, [])
        | None =>
            ([Stdlog WillWriteProfile; StartCPUProfile None], None, [StopCPUProfile])
        end
    end
  else ([], None, []).

(** Lines 134-207.  The result is the trace, the deferred calls in the order
    they would run, and the outcome.  [make] panics on a negative size and
    [time.NewTicker] on a non-positive duration. *)
Definition pipeline (w : World) (cfg : config.Configuration)
  : list Call * list Call * Outcome :=
  let inits := map (fun v => VCenterInit v (config.Metrics cfg)) (config.VCenters cfg) in
  match backend.Init (config.Backend cfg) with
  | Some err =>
      (inits ++ [BackendInit (Some err)], [],
       Returned "Could not initialize backend" (Some err))
  | None =>
      let t1 := inits ++ [BackendInit None; SignalNotify] in
      if decide (config.FlushSize cfg < 0)%Z then (t1, [BackendDisconnect], Panicked)
      else
        let t2 := t1 ++ [MakeChan (config.FlushSize cfg)] in
        let d := wrap64 (Second * config.Interval cfg) in
        if decide (d <= 0)%Z then (t2, [BackendDisconnect], Panicked)
        else
          let t3 := t2 ++ [NewTicker the_ticker d; NewTicker the_memtimer d]
                       ++ retrieve cfg in
          let '(t4, out) :=
            run cfg (start (Z.to_nat (config.FlushSize cfg)) (config.Backend cfg))
                (selected w) in
          (t3 ++ t4,
           [StopTicker the_memtimer; StopTicker the_ticker; BackendDisconnect],
           out)
  end.

(** Deferred calls run when the function returns or panics, not when the
    process exits through [log.Fatal], nor while the loop is still waiting. *)
Definition deferred (out : Outcome) (ds : list Call) : list Call :=
  match out with
  | Returned _ _ | Panicked => ds
  | Fatal | Waiting _ => []
  end.

(** [if config.FlushSize == 0 { config.FlushSize = 1000 }] *)
Definition defaultFlushSize (cfg : config.Configuration) : config.Configuration :=
  if decide (config.FlushSize cfg = 0%Z) then config.withFlushSize cfg 1000 else cfg.

(** [func (service *Service) Manage() (string, error)] *)
Definition Manage (w : World) : list Call * Outcome :=
  match Args w with
  | [] => ([], Panicked)                     (* os.Args[0] at line 80 *)
  | _ :: command :: _ =>
      let '(tr, (status, err)) := dispatch w command in (tr, Returned status err)
  | [prog] =>
      let t0 := [Stdlog (StartingDaemon prog)] in
      match Open w with
      | Some err => (t0, Returned "Could not open configuration file" (Some err))
      | None =>
          match Decode w with
          | inl err => (t0, Returned "Could not decode configuration file" (Some err))
          | inr decoded =>
              let cfg := defaultFlushSize decoded in
              match profiling w cfg with
              | (t1, Some out, _) => (t0 ++ t1, out)
              | (t1, None, d1) =>
                  let cfg := config.withBackend cfg (Getenv w (config.Backend cfg)) in
                  let '(t2, d2, out) := pipeline w cfg in
                  (t0 ++ t1 ++ t2 ++ deferred out (d2 ++ d1), out)
              end
          end
      end
  end.

(** How the process stands at the end of the trace. *)
Inductive Process : Type :=
| Exit (code : Z)
| Running.

(** [func main()].  A panic ends a Go process with status 2. *)
Definition main (w : World) : list Call * Process :=
  match daemonNew w with
  | Some err => ([Errlog (ErrorLine None err)], Exit 1)
  | None =>
      match Manage w with
      | (tr, Returned status (Some err)) =>
          (tr ++ [Errlog (ErrorLine (Some status) err)], Exit 1)
      | (tr, Returned status None) => (tr ++ [Println status], Exit 0)
      | (tr, Fatal) => (tr, Exit 1)
      | (tr, Panicked) => (tr, Exit 2)
      | (tr, Waiting _) => (tr, Running)
      end
  end.

(** ** Predicates used in the statements *)

(** Between two iterations the buffer has its [N] slots and the cursor
    points at one of them. *)
Definition ready (N : nat) (st : Loop) : Prop :=
  length (pointbuffer st) = N /\ bufferindex st < N.

(** The states the loop goes through when it starts with [N] slots. *)
Inductive reachable (cfg : config.Configuration) (N : nat) (b : backend.Backend)
  : Loop -> Prop :=
| reachable_start : reachable cfg N b (start N b)
| reachable_step (st st' : Loop) (ev : Event) (tr : list Call) :
    reachable cfg N b st -> step cfg st ev = (tr, Continue st') ->
    reachable cfg N b st'.

(** The same world, with other events delivered to the [select]. *)
Definition with_selected (w : World) (evs : list Event) : World :=
  {| Args := Args w; daemonNew := daemonNew w;
     Install := Install w; Remove := Remove w; Start := Start w; Stop := Stop w;
     Status := Status w; Open := Open w; Decode := Decode w;
     TempFile := TempFile w; StartProfile := StartProfile w;
     Getenv := Getenv w; selected := evs |}.

(** The configuration [Manage] works with once the file is decoded: the
    default flush size applied and the backend fields overridden. *)
Definition effective (w : World) (decoded : config.Configuration) : config.Configuration :=
  config.withBackend (defaultFlushSize decoded)
    (Getenv w (config.Backend (defaultFlushSize decoded))).

(** [Manage] is run without a command, reads its configuration and gets as
    far as initialising the backend of configuration [cfg]. *)
Definition reaches_init (w : World) (cfg : config.Configuration) : Prop :=
  exists prog decoded,
    Args w = [prog] /\ Open w = None /\ Decode w = inr decoded /\
    snd (fst (profiling w (defaultFlushSize decoded))) = None /\
    cfg = effective w decoded.

(** Start-up succeeds and the consuming loop is entered. *)
Definition enters_loop (w : World) (cfg : config.Configuration) : Prop :=
  reaches_init w cfg /\
  backend.Init (config.Backend cfg) = None /\
  (0 <= config.FlushSize cfg)%Z /\
  (0 < wrap64 (Second * config.Interval cfg))%Z.

(** Calls that belong to polling: a query task or a timer being started. *)
Definition polls (c : Call) : bool :=
  match c with
  | GoQuery _ _ _ | NewTicker _ _ => true
  | _ => false
  end.

(** The vCenters for which a query task is started in a trace, in order. *)
Fixpoint queries (tr : list Call) : list vsphere.VCenter :=
  match tr with
  | [] => []
  | GoQuery v _ _ :: tr' => v :: queries tr'
  | _ :: tr' => queries tr'
  end.

(** The number of times the [ticker] case is taken. *)
Fixpoint ticks (evs : list Event) : nat :=
  match evs with
  | [] => 0
  | ticker :: evs' => S (ticks evs')
  | _ :: evs' => ticks evs'
  end.

(** The timers created in a trace, with their periods in nanoseconds. *)
Fixpoint timers (tr : list Call) : list (Timer * Z) :=
  match tr with
  | [] => []
  | NewTicker t d :: tr' => (t, d) :: timers tr'
  | _ :: tr' => timers tr'
  end.

(** Calls that touch the backend or start work: what must not follow the
    deferred clean-up. *)
Definition works (c : Call) : bool :=
  match c with
  | BackendSendMetrics _ _ | BackendInit _ | GoQuery _ _ _ | NewTicker _ _
  | VCenterInit _ _ => true
  | _ => false
  end.

(** The calls deferred by a [Manage] that has entered its loop, in the
    order they run: both tickers stopped, the backend disconnected, and the
    CPU profile stopped when profiling is on. *)
Definition cleanup (cfg : config.Configuration) : list Call :=
  [StopTicker the_memtimer; StopTicker the_ticker; BackendDisconnect]
    ++ (if config.Profiling cfg then [StopCPUProfile] else []).

(** Two loop states with the same buffer and cursor, whatever their
    backends. *)
Definition same_buffer (st1 st2 : Loop) : Prop :=
  pointbuffer st1 = pointbuffer st2 /\ bufferindex st1 = bufferindex st2.

(** Two outcomes that differ at most in the backend of a waiting loop. *)
Definition same_outcome (o1 o2 : Outcome) : Prop :=
  match o1, o2 with
  | Returned s1 e1, Returned s2 e2 => s1 = s2 /\ e1 = e2
  | Fatal, Fatal => True
  | Panicked, Panicked => True
  | Waiting st1, Waiting st2 => same_buffer st1 st2
  | _, _ => False
  end.

(** The calls [Manage] makes, in order, from its first line to the first
    [select], when nothing fails: [d] is the period of both tickers. *)
Definition startup (prog : string) (cfg : config.Configuration) : list Call :=
  [Stdlog (StartingDaemon prog)]
    ++ (if config.Profiling cfg
        then [Stdlog WillWriteProfile; StartCPUProfile None] else [])
    ++ map (fun v => VCenterInit v (config.Metrics cfg)) (config.VCenters cfg)
    ++ [BackendInit None; SignalNotify; MakeChan (config.FlushSize cfg);
        NewTicker the_ticker (wrap64 (Second * config.Interval cfg));
        NewTicker the_memtimer (wrap64 (Second * config.Interval cfg))]
    ++ retrieve cfg.

(** The lines written on the standard log and on the error log in a
    trace, in order. *)
Fixpoint logged (tr : list Call) : list Line :=
  match tr with
  | [] => []
  | Stdlog l :: tr' => l :: logged tr'
  | Errlog l :: tr' => l :: logged tr'
  | _ :: tr' => logged tr'
  end.


(** Signals as the operating system hands them over.  [signal.Notify] is
    given [os.Kill] with the two others, but package [os/signal] cannot
    relay it (SIGKILL and SIGSTOP may not be caught by a program): the
    kernel ends the process at once and the [interrupt] channel never
    receives it. *)
Definition catchable (s : Signal) : bool :=
  if decide (s = os_Kill) then false else true.

(** Events the [select] can receive: any but the relay of [os.Kill]. *)
Definition deliverable (evs : list Event) : bool :=
  forallb (fun ev => match ev with interrupt s => catchable s | _ => true end) evs.

(** How the process stands once a signal has been sent to it: it has run to
    the end of [main] (or is still running), or the kernel has killed it. *)
Inductive Fate : Type :=
| Finished (p : Process)
| Killed (s : Signal).

(** The process when signal [s] is sent to it after its [select] has taken
    the events [pre]; [rest] is what the [select] would receive next.  A
    signal that can be caught becomes the next event of the [select]; one
    that cannot ends the process where it stands. *)
Definition signalled (w : World) (pre : list Event) (s : Signal) (rest : list Event)
  : list Call * Fate :=
  if catchable s
  then let '(tr, p) := main (with_selected w (pre ++ interrupt s :: rest)) in
       (tr, Finished p)
  else let '(tr, p) := main (with_selected w pre) in
       match p with
       | Running => (tr, Killed s)
       | Exit _ => (tr, Finished p)
       end.

(** ** Concrete inputs *)

Definition pt (n : Z) : backend.Point :=
  {| backend.Name := "cpu.usage"; backend.Value := n; backend.Timestamp := 1500000000 + n;
     backend.Tags := [("host", "esx1")] |}.

Definition graphite : backend.Backend :=
  {| backend.InitResult := None; backend.SendResults := [] |}.

Definition flaky : backend.Backend :=
  {| backend.InitResult := None; backend.SendResults := [Some "connection refused"] |}.

Definition vc1 : vsphere.VCenter :=
  {| vsphere.Hostname := "vcenter"; vsphere.Username := "user"; vsphere.Password := "pass" |}.

Definition cfg3 : config.Configuration :=
  {| config.VCenters := [vc1]; config.Metrics := ["cpu.usage"]; config.Interval := 60;
     config.Domain := ".local"; config.Backend := graphite; config.FlushSize := 3;
     config.Profiling := false |}.

Definition world3 (evs : list Event) : World :=
  {| Args := ["vsphere-graphite"]; daemonNew := None;
     Install := ("installed", None); Remove := ("removed", None);
     Start := ("started", None); Stop := ("stopped", None);
     Status := ("running", None);
     Open := None; Decode := inr cfg3; TempFile := None; StartProfile := None;
     Getenv := fun b => b; selected := evs |}.

Definition refusing : backend.Backend :=
  {| backend.InitResult := Some "dial tcp: connection refused";
     backend.SendResults := [] |}.

Definition world_refused : World :=
  {| Args := ["vsphere-graphite"]; daemonNew := None;
     Install := ("installed", None); Remove := ("removed", None);
     Start := ("started", None); Stop := ("stopped", None);
     Status := ("running", None);
     Open := None; Decode := inr (config.withBackend cfg3 refusing);
     TempFile := None; StartProfile := None;
     Getenv := fun b => b; selected := [metrics (pt 1); ticker] |}.

Definition one_stored : Loop :=
  {| pointbuffer := [pt 1; backend.zero; backend.zero]; bufferindex := 1;
     Backend := graphite |}.

Definition two_stored_flaky : Loop :=
  {| pointbuffer := [pt 1; pt 2; backend.zero]; bufferindex := 2;
     Backend := flaky |}.

(** A world with the given command line, decoded configuration and events,
    where every system call succeeds. *)
Definition a_world (args : list string) (decoded : config.Configuration)
    (evs : list Event) : World :=
  {| Args := args; daemonNew := None;
     Install := ("Install vsphere-graphite:    [  OK  ]", None);
     Remove := ("Remove vsphere-graphite:    [  OK  ]", None);
     Start := ("Starting vsphere-graphite:    [  OK  ]", None);
     Stop := ("Stopping vsphere-graphite:    [  OK  ]", None);
     Status := ("Service is stopped", Some "Service is stopped");
     Open := None; Decode := inr decoded; TempFile := None; StartProfile := None;
     Getenv := fun b => b; selected := evs |}.

Definition world_failing (open : error) (decode : string + config.Configuration)
    (temp startp : error) : World :=
  {| Args := ["vsphere-graphite"]; daemonNew := None;
     Install := ("", None); Remove := ("", None); Start := ("", None);
     Stop := ("", None); Status := ("", None);
     Open := open; Decode := decode; TempFile := temp; StartProfile := startp;
     Getenv := fun b => b; selected := [metrics (pt 1)] |}.

Definition cfg_profiling : config.Configuration :=
  {| config.VCenters := [vc1]; config.Metrics := ["cpu.usage"]; config.Interval := 60;
     config.Domain := ".local"; config.Backend := graphite; config.FlushSize := 3;
     config.Profiling := true |}.

Definition cfg_interval (i : Z) : config.Configuration :=
  {| config.VCenters := [vc1]; config.Metrics := ["cpu.usage"]; config.Interval := i;
     config.Domain := ".local"; config.Backend := graphite; config.FlushSize := 3;
     config.Profiling := false |}.


(** 1001 Points, numbered from 0. *)
Definition thousand_and_one : list Event :=
  map (fun n => metrics (pt (Z.of_nat n))) (seq 0 1001).

(** ** Traces *)

Lemma batches_app (t1 t2 : list Call) : batches (t1 ++ t2) = batches t1 ++ batches t2.
Proof.
  induction t1 as [|c t1 IH]; [reflexivity|].
  destruct c; simpl; rewrite IH; reflexivity.
Qed.

Lemma sent_counts_app (t1 t2 : list Call) :
  sent_counts (t1 ++ t2) = sent_counts t1 ++ sent_counts t2.
Proof.
  induction t1 as [|c t1 IH]; [reflexivity|].
  destruct c; simpl; try (rewrite IH; reflexivity).
  match goal with l : Line |- _ => destruct l end; simpl; rewrite IH; reflexivity.
Qed.

Lemma send_results_app (t1 t2 : list Call) :
  send_results (t1 ++ t2) = send_results t1 ++ send_results t2.
Proof.
  induction t1 as [|c t1 IH]; [reflexivity|].
  destruct c; simpl; rewrite IH; reflexivity.
Qed.

Lemma send_results_retrieve (cfg : config.Configuration) : send_results (retrieve cfg) = [].
Proof.
  unfold retrieve. simpl. induction (config.VCenters cfg) as [|v vs IH];
    [reflexivity | exact IH].
Qed.

Lemma batches_retrieve (cfg : config.Configuration) : batches (retrieve cfg) = [].
Proof.
  unfold retrieve. simpl. induction (config.VCenters cfg) as [|v vs IH];
    [reflexivity | exact IH].
Qed.

Lemma sent_counts_retrieve (cfg : config.Configuration) : sent_counts (retrieve cfg) = [].
Proof.
  unfold retrieve. simpl. induction (config.VCenters cfg) as [|v vs IH];
    [reflexivity | exact IH].
Qed.

Lemma arrivals_app (e1 e2 : list Event) : arrivals (e1 ++ e2) = arrivals e1 ++ arrivals e2.
Proof.
  induction e1 as [|e e1 IH]; [reflexivity|].
  destruct e; simpl; rewrite IH; reflexivity.
Qed.

(** ** The buffer between two iterations *)

(** The clearing loop writes the zero Point into every slot from [i] on. *)
Lemma reset_from_spec (n i : nat) (buf : list backend.Point) :
  i + n = length buf ->
  reset_from n i buf = take i buf ++ replicate n backend.zero.
Proof.
  revert i buf. induction n as [|n IH]; intros i buf Hlen; simpl.
  - rewrite take_ge by lia. rewrite app_nil_r. reflexivity.
  - rewrite IH by (rewrite length_insert; lia).
    rewrite (take_S_r _ i backend.zero) by (apply list_lookup_insert_eq; lia).
    rewrite take_insert_ge by lia.
    rewrite <- app_assoc. reflexivity.
Qed.

Lemma reset_spec (buf : list backend.Point) :
  reset buf = replicate (length buf) backend.zero.
Proof. unfold reset. rewrite reset_from_spec by lia. reflexivity. Qed.

Lemma ready_start (N : nat) (b : backend.Backend) : 0 < N -> ready N (start N b).
Proof. intros HN. split; simpl; [apply length_replicate | exact HN]. Qed.

Section Steps.

Variable cfg : config.Configuration.
Variable N : nat.

(** A Point that does not fill the buffer is stored and nothing else happens. *)
Lemma step_metrics_store (st : Loop) (p : backend.Point) :
  ready N st -> S (bufferindex st) < N ->
  step cfg st (metrics p) =
    ([], Continue {| pointbuffer := <[bufferindex st := p]> (pointbuffer st);
                     bufferindex := S (bufferindex st);
                     Backend := Backend st |}).
Proof.
  intros [Hlen Hidx] Hlt. unfold step.
  rewrite decide_True by lia.
  rewrite decide_False by (rewrite length_insert; lia).
  reflexivity.
Qed.

(** The Point that fills the buffer sends it whole and clears it. *)
Lemma step_metrics_flush (st : Loop) (p : backend.Point) :
  ready N st -> S (bufferindex st) = N ->
  step cfg st (metrics p) =
    let batch := <[bufferindex st := p]> (pointbuffer st) in
    ([BackendSendMetrics batch (snd (backend.SendMetrics (Backend st) batch));
      Stdlog (SentLogs N)],
     Continue {| pointbuffer := replicate N backend.zero;
                 bufferindex := 0;
                 Backend := fst (backend.SendMetrics (Backend st) batch) |}).
Proof.
  intros [Hlen Hidx] Heq. unfold step.
  rewrite decide_True by lia.
  rewrite decide_True by (rewrite length_insert; lia).
  destruct (backend.SendMetrics _ _) as [b res]; simpl.
  rewrite reset_spec, length_insert, Hlen. reflexivity.
Qed.

(** A signal sends the filled part of the buffer, if any, and returns. *)
Lemma step_interrupt (st : Loop) (s : Signal) :
  ready N st ->
  step cfg st (interrupt s) =
    (Stdlog (GotSignal s) ::
       (if decide (0 < bufferindex st) then
          [BackendSendMetrics (take (bufferindex st) (pointbuffer st))
             (snd (backend.SendMetrics (Backend st)
                     (take (bufferindex st) (pointbuffer st))));
           Stdlog (SentLogs (bufferindex st))]
        else []),
     Return (status_of s) None).
Proof.
  intros [Hlen Hidx]. unfold step.
  destruct (decide (0 < bufferindex st)); [|reflexivity].
  rewrite decide_True by lia.
  destruct (backend.SendMetrics _ _) as [b res]; reflexivity.
Qed.

Lemma step_ready (st st' : Loop) (ev : Event) (tr : list Call) :
  ready N st -> step cfg st ev = (tr, Continue st') -> ready N st'.
Proof.
  intros Hr Hstep. pose proof Hr as [Hlen Hidx].
  destruct ev as [p| |Sys|s].
  - destruct (decide (S (bufferindex st) = N)) as [Heq|Hne].
    + rewrite (step_metrics_flush st p Hr Heq) in Hstep. simpl in Hstep.
      inversion Hstep; subst st'. split; simpl; [apply length_replicate | lia].
    + rewrite (step_metrics_store st p Hr) in Hstep by lia.
      inversion Hstep; subst st'. split; simpl; [rewrite length_insert|]; lia.
  - simpl in Hstep. inversion Hstep; subst; exact Hr.
  - simpl in Hstep. inversion Hstep; subst; exact Hr.
  - rewrite (step_interrupt st s Hr) in Hstep. discriminate.
Qed.

(** A step out of a ready state never panics. *)
Lemma step_no_panic (st : Loop) (ev : Event) :
  ready N st -> snd (step cfg st ev) <> Panic.
Proof.
  intros Hr. destruct ev as [p| |Sys|s].
  - destruct (decide (S (bufferindex st) = N)) as [Heq|Hne].
    + rewrite (step_metrics_flush st p Hr Heq). discriminate.
    + destruct Hr as [Hlen Hidx].
      rewrite (step_metrics_store st p (conj Hlen Hidx)) by lia. discriminate.
  - discriminate.
  - discriminate.
  - rewrite (step_interrupt st s Hr). discriminate.
Qed.

Lemma run_cons (st : Loop) (ev : Event) (evs : list Event) :
  run cfg st (ev :: evs) =
    match step cfg st ev with
    | (tr, Continue st') => let '(tr', out) := run cfg st' evs in (tr ++ tr', out)
    | (tr, Return status err) => (tr, Returned status err)
    | (tr, Panic) => (tr, Panicked)
    end.
Proof. reflexivity. Qed.

Lemma run_continue (st st' : Loop) (ev : Event) (evs : list Event)
      (tr tr' : list Call) (out : Outcome) :
  step cfg st ev = (tr, Continue st') -> run cfg st' evs = (tr', out) ->
  run cfg st (ev :: evs) = (tr ++ tr', out).
Proof. intros Hstep Hrun. rewrite run_cons, Hstep, Hrun. reflexivity. Qed.

(** The loop run on [pre ++ evs] carries on from where [pre] left it. *)
Lemma run_app (pre evs : list Event) (st st1 : Loop) (t1 : list Call) :
  run cfg st pre = (t1, Waiting st1) ->
  run cfg st (pre ++ evs) = (t1 ++ fst (run cfg st1 evs), snd (run cfg st1 evs)).
Proof.
  revert st t1. induction pre as [|ev pre IH]; intros st t1 Hrun; simpl in *.
  - inversion Hrun; subst. destruct (run cfg st1 evs); reflexivity.
  - destruct (step cfg st ev) as [tr [st'| |]]; try discriminate.
    destruct (run cfg st' pre) as [tr' out] eqn:Hpre.
    inversion Hrun; subst.
    rewrite (IH st' tr' Hpre). rewrite <- app_assoc. reflexivity.
Qed.

(** Without a signal the loop keeps waiting, in a ready state. *)
Lemma run_quiet (evs : list Event) (st : Loop) :
  ready N st -> quiet evs = true ->
  exists tr st1, run cfg st evs = (tr, Waiting st1) /\ ready N st1.
Proof.
  revert st. induction evs as [|ev evs IH]; intros st Hr Hq; simpl.
  - eauto.
  - simpl in Hq. apply andb_true_iff in Hq as [Hev Hq].
    destruct (step cfg st ev) as [tr nxt] eqn:Hstep.
    destruct nxt as [st'| |].
    + destruct (IH st' (step_ready _ _ _ _ Hr Hstep) Hq) as (tr' & st1 & Hrun & Hr1).
      rewrite Hrun. eauto.
    + destruct ev; try discriminate.
      * destruct (decide (S (bufferindex st) = N)) as [Heq|Hne].
        -- rewrite (step_metrics_flush st _ Hr Heq) in Hstep. discriminate.
        -- destruct Hr as [Hlen Hidx].
           rewrite (step_metrics_store st _ (conj Hlen Hidx)) in Hstep by lia.
           discriminate.
    + pose proof (step_no_panic st ev Hr) as Hnp. rewrite Hstep in Hnp. contradiction.
Qed.

(** Fewer Points than free slots: they are stored in order and nothing is
    sent. *)
Lemma run_fill (evs : list Event) (st : Loop) :
  ready N st -> quiet evs = true ->
  bufferindex st + length (arrivals evs) < N ->
  exists tr st1,
    run cfg st evs = (tr, Waiting st1) /\
    batches tr = [] /\ sent_counts tr = [] /\
    ready N st1 /\
    bufferindex st1 = bufferindex st + length (arrivals evs) /\
    take (bufferindex st1) (pointbuffer st1) =
      take (bufferindex st) (pointbuffer st) ++ arrivals evs /\
    Backend st1 = Backend st.
Proof.
  revert st. induction evs as [|ev evs IH]; intros st Hr Hq Hlt.
  - exists [], st. simpl. rewrite Nat.add_0_r, app_nil_r. tauto.
  - simpl in Hq. apply andb_true_iff in Hq as [Hev Hq].
    destruct ev as [p| |Sys|s]; simpl in Hlt; try discriminate.
    + pose proof Hr as [Hlen Hidx].
      pose proof (step_metrics_store st p Hr ltac:(lia)) as Hstep.
      pose proof (step_ready _ _ _ _ Hr Hstep) as Hr'.
      destruct (IH _ Hr' Hq) as (tr & st1 & Hrun & Hb & Hc & Hr1 & Hi & Ht & HB);
        [simpl; lia|].
      exists tr, st1. simpl in Hi, Ht, HB |- *.
      split; [exact (run_continue _ _ _ _ _ _ _ Hstep Hrun)|].
      do 3 (split; [assumption|]).
      split; [lia|]. split; [|assumption].
      rewrite Ht.
      rewrite (take_S_r _ _ p) by (apply list_lookup_insert_eq; lia).
      rewrite take_insert_ge by lia. rewrite <- app_assoc. reflexivity.
    + destruct (IH st Hr Hq Hlt) as (tr & st1 & Hrun & Hb & Hc & Hrest).
      exists (retrieve cfg ++ tr), st1.
      split; [apply (run_continue st st ticker evs _ _ _ eq_refl Hrun)|].
      rewrite batches_app, sent_counts_app, batches_retrieve, sent_counts_retrieve, Hb, Hc.
      tauto.
    + destruct (IH st Hr Hq Hlt) as (tr & st1 & Hrun & Hb & Hc & Hrest).
      eexists _, st1.
      split; [apply (run_continue st st (memtimer Sys) evs _ _ _ eq_refl Hrun)|].
      rewrite batches_app, sent_counts_app, Hb, Hc. tauto.
Qed.

(** Timer events alone leave the loop where it was and send nothing. *)
Lemma run_idle (evs : list Event) (st : Loop) :
  quiet evs = true -> arrivals evs = [] ->
  exists tr,
    run cfg st evs = (tr, Waiting st) /\
    batches tr = [] /\ sent_counts tr = [] /\ send_results tr = [].
Proof.
  induction evs as [|ev evs IH]; intros Hq Ha.
  - exists []. repeat split.
  - simpl in Hq. apply andb_true_iff in Hq as [Hev Hq].
    destruct ev as [p| |Sys|s]; simpl in Ha; try discriminate.
    + destruct (IH Hq Ha) as (tr & Hrun & Hb & Hc & Hs).
      exists (retrieve cfg ++ tr).
      split; [apply (run_continue st st ticker evs _ _ _ eq_refl Hrun)|].
      rewrite batches_app, sent_counts_app, send_results_app.
      rewrite batches_retrieve, sent_counts_retrieve, send_results_retrieve, Hb, Hc, Hs.
      repeat split.
    + destruct (IH Hq Ha) as (tr & Hrun & Hb & Hc & Hs).
      eexists.
      split; [apply (run_continue st st (memtimer Sys) evs _ _ _ eq_refl Hrun)|].
      rewrite batches_app, sent_counts_app, send_results_app, Hb, Hc, Hs.
      repeat split.
Qed.

(** Writing into the last slot completes the prefix already stored. *)
Lemma insert_last (buf : list backend.Point) (i : nat) (p : backend.Point) :
  S i = length buf -> <[i := p]> buf = take i buf ++ [p].
Proof.
  intros Hlen. rewrite insert_take_drop by lia.
  rewrite drop_ge by lia. reflexivity.
Qed.

(** As many Points as free slots: one full batch is sent, in arrival order,
    and the buffer starts afresh. *)
Lemma run_flush (evs : list Event) (st : Loop) :
  ready N st -> quiet evs = true ->
  bufferindex st + length (arrivals evs) = N ->
  let batch := take (bufferindex st) (pointbuffer st) ++ arrivals evs in
  exists tr,
    run cfg st evs =
      (tr, Waiting {| pointbuffer := replicate N backend.zero;
                      bufferindex := 0;
                      Backend := fst (backend.SendMetrics (Backend st) batch) |}) /\
    batches tr = [batch] /\ sent_counts tr = [N] /\
    send_results tr = [snd (backend.SendMetrics (Backend st) batch)].
Proof.
  revert st. induction evs as [|ev evs IH]; intros st Hr Hq Hfull batch.
  - destruct Hr as [Hlen Hidx]. simpl in Hfull. lia.
  - simpl in Hq. apply andb_true_iff in Hq as [Hev Hq].
    pose proof Hr as [Hlen Hidx].
    destruct ev as [p| |Sys|s]; simpl in Hfull; try discriminate.
    + destruct (decide (S (bufferindex st) = N)) as [Heq|Hne].
      * assert (Ha : arrivals evs = [])
          by (apply length_zero_iff_nil; lia).
        pose proof (step_metrics_flush st p Hr Heq) as Hstep. cbv zeta in Hstep.
        rewrite insert_last in Hstep by lia.
        subst batch. simpl arrivals. rewrite Ha.
        destruct (run_idle evs
                    {| pointbuffer := replicate N backend.zero; bufferindex := 0;
                       Backend := fst (backend.SendMetrics (Backend st)
                                         (take (bufferindex st) (pointbuffer st) ++ [p])) |}
                    Hq Ha) as (tr & Hrun & Hb & Hc & Hs).
        eexists. split; [exact (run_continue _ _ _ _ _ _ _ Hstep Hrun)|].
        rewrite batches_app, sent_counts_app, send_results_app, Hb, Hc, Hs.
        repeat split.
      * pose proof (step_metrics_store st p Hr ltac:(lia)) as Hstep.
        pose proof (step_ready _ _ _ _ Hr Hstep) as Hr'.
        destruct (IH _ Hr' Hq) as (tr & Hrun & Hb & Hc & Hs); [simpl; lia|].
        simpl in Hrun, Hb, Hs.
        rewrite (take_S_r _ _ p) in Hrun, Hb, Hs by (apply list_lookup_insert_eq; lia).
        rewrite take_insert_ge in Hrun, Hb, Hs by lia.
        rewrite <- app_assoc in Hrun, Hb, Hs.
        exists tr. split; [exact (run_continue _ _ _ _ _ _ _ Hstep Hrun)|].
        subst batch. simpl arrivals. tauto.
    + destruct (IH st Hr Hq Hfull) as (tr & Hrun & Hb & Hc & Hs).
      exists (retrieve cfg ++ tr).
      split; [apply (run_continue st st ticker evs _ _ _ eq_refl Hrun)|].
      rewrite batches_app, sent_counts_app, send_results_app.
      rewrite batches_retrieve, sent_counts_retrieve, send_results_retrieve, Hb, Hc, Hs.
      repeat split.
    + destruct (IH st Hr Hq Hfull) as (tr & Hrun & Hb & Hc & Hs).
      eexists.
      split; [apply (run_continue st st (memtimer Sys) evs _ _ _ eq_refl Hrun)|].
      rewrite batches_app, sent_counts_app, send_results_app, Hb, Hc, Hs.
      repeat split.
Qed.

End Steps.

(** ** The Point buffer *)

(** C1 (flush trigger).  With the cursor at 0 and a buffer of [N] slots, a
    run of events that delivers exactly [N] Points, with no termination
    signal among them, makes exactly one [SendMetrics] call; its argument is
    the [N] Points in arrival order; the loop announces [N] sent Points and
    is left waiting with the cursor back at 0. *)
Theorem C1_flush_trigger (cfg : config.Configuration) (N : nat) (st : Loop)
    (evs : list Event) :
  ready N st -> bufferindex st = 0 ->
  quiet evs = true -> length (arrivals evs) = N ->
  exists tr st1,
    run cfg st evs = (tr, Waiting st1) /\
    batches tr = [arrivals evs] /\
    sent_counts tr = [N] /\
    bufferindex st1 = 0.
Proof.
  intros Hr Hidx Hq Hlen.
  destruct (run_flush cfg N evs st Hr Hq) as (tr & Hrun & Hb & Hc & _);
    [lia|].
  rewrite Hidx, take_0 in Hrun, Hb. simpl in Hrun, Hb.
  eexists tr, _. split; [exact Hrun|]. auto.
Qed.

Lemma C1_flush_trigger_witness :
  exists tr st1,
    run cfg3 (start 3 graphite)
        [metrics (pt 1); ticker; metrics (pt 2); memtimer 4096; metrics (pt 3)]
      = (tr, Waiting st1) /\
    batches tr = [[pt 1; pt 2; pt 3]] /\
    sent_counts tr = [3] /\
    bufferindex st1 = 0.
Proof.
  apply (C1_flush_trigger cfg3 3 (start 3 graphite)
           [metrics (pt 1); ticker; metrics (pt 2); memtimer 4096; metrics (pt 3)]).
  - split; simpl; lia.
  - reflexivity.
  - reflexivity.
  - reflexivity.
Defined.

(** C4 (buffer correctness).  With the cursor at 0, a run of events that
    delivers fewer Points than the buffer has slots makes no [SendMetrics]
    call, and the Points sit in slots [0, n) in arrival order, [n] being
    their number and the new value of the cursor. *)
Theorem C4_buffer_below_capacity (cfg : config.Configuration) (N : nat) (st : Loop)
    (evs : list Event) :
  ready N st -> bufferindex st = 0 ->
  quiet evs = true -> length (arrivals evs) < N ->
  exists tr st1,
    run cfg st evs = (tr, Waiting st1) /\
    batches tr = [] /\
    bufferindex st1 = length (arrivals evs) /\
    length (pointbuffer st1) = N /\
    forall i p, arrivals evs !! i = Some p -> pointbuffer st1 !! i = Some p.
Proof.
  intros Hr Hidx Hq Hlen.
  destruct (run_fill cfg N evs st Hr Hq) as (tr & st1 & Hrun & Hb & _ & Hr1 & Hi & Ht & _);
    [lia|].
  rewrite Hidx in Hi, Ht. rewrite take_0 in Ht. simpl in Hi, Ht.
  exists tr, st1. split; [exact Hrun|]. split; [exact Hb|]. split; [exact Hi|].
  split; [exact (proj1 Hr1)|].
  intros i p Hp. rewrite <- Ht in Hp.
  apply lookup_take_Some in Hp. tauto.
Qed.

Lemma C4_buffer_below_capacity_witness :
  exists tr st1,
    run cfg3 (start 3 graphite) [metrics (pt 1); ticker; metrics (pt 2)]
      = (tr, Waiting st1) /\
    batches tr = [] /\
    bufferindex st1 = 2 /\
    length (pointbuffer st1) = 3 /\
    forall i p, [pt 1; pt 2] !! i = Some p -> pointbuffer st1 !! i = Some p.
Proof.
  apply (C4_buffer_below_capacity cfg3 3 (start 3 graphite)
           [metrics (pt 1); ticker; metrics (pt 2)]).
  - split; simpl; lia.
  - reflexivity.
  - reflexivity.
  - simpl. lia.
Defined.

(** C5 (slot reuse).  When the Point that fills the buffer arrives, the
    whole buffer is sent and the loop goes on with a buffer all of whose [N]
    slots read back as the zero Point; timer events leave it so until the
    next Point arrives. *)
Theorem C5_slots_zero_after_flush (cfg : config.Configuration) (N : nat) (st : Loop)
    (p : backend.Point) (evs : list Event) :
  ready N st -> S (bufferindex st) = N ->
  quiet evs = true -> arrivals evs = [] ->
  exists tr st1,
    run cfg st (metrics p :: evs) = (tr, Waiting st1) /\
    batches tr = [<[bufferindex st := p]> (pointbuffer st)] /\
    length (pointbuffer st1) = N /\
    forall i, i < N -> pointbuffer st1 !! i = Some backend.zero.
Proof.
  intros Hr Hfull Hq Ha.
  pose proof (step_metrics_flush cfg N st p Hr Hfull) as Hstep. cbv zeta in Hstep.
  destruct (run_idle cfg evs
              {| pointbuffer := replicate N backend.zero; bufferindex := 0;
                 Backend := fst (backend.SendMetrics (Backend st)
                                   (<[bufferindex st := p]> (pointbuffer st))) |}
              Hq Ha) as (tr & Hrun & Hb & _).
  eexists _, _. split; [exact (run_continue _ _ _ _ _ _ _ _ Hstep Hrun)|].
  rewrite batches_app, Hb. simpl.
  split; [reflexivity|]. split; [apply length_replicate|].
  intros i Hi. apply lookup_replicate_2. exact Hi.
Qed.

Lemma C5_slots_zero_after_flush_witness :
  exists tr st1,
    run cfg3 {| pointbuffer := [pt 1; pt 2; backend.zero]; bufferindex := 2;
                Backend := graphite |}
        [metrics (pt 3); ticker; memtimer 4096]
      = (tr, Waiting st1) /\
    batches tr = [[pt 1; pt 2; pt 3]] /\
    length (pointbuffer st1) = 3 /\
    forall i, i < 3 -> pointbuffer st1 !! i = Some backend.zero.
Proof.
  apply (C5_slots_zero_after_flush cfg3 3
           {| pointbuffer := [pt 1; pt 2; backend.zero]; bufferindex := 2;
              Backend := graphite |}
           (pt 3) [ticker; memtimer 4096]).
  - split; simpl; lia.
  - reflexivity.
  - reflexivity.
  - reflexivity.
Defined.

(** C2 (partial flush on shutdown).  With the cursor at 0, let [k] Points
    arrive, [k] below the capacity, and then a termination signal.  If
    [k = 0] no [SendMetrics] call is made; otherwise exactly one is made,
    with those [k] Points in arrival order, and [k] is the count logged.  The
    loop is left with [Manage]'s return: whatever events would follow the
    signal, the trace and the result are the same, so no later Point is
    taken from the channel. *)
Theorem C2_partial_flush_on_shutdown (cfg : config.Configuration) (N : nat)
    (st : Loop) (pre : list Event) (s : Signal) :
  ready N st -> bufferindex st = 0 ->
  quiet pre = true -> length (arrivals pre) < N ->
  exists tr,
    (forall rest,
       run cfg st (pre ++ interrupt s :: rest) = (tr, Returned (status_of s) None)) /\
    batches tr = (if decide (arrivals pre = []) then [] else [arrivals pre]) /\
    sent_counts tr =
      (if decide (arrivals pre = []) then [] else [length (arrivals pre)]).
Proof.
  intros Hr Hidx Hq Hlen.
  destruct (run_fill cfg N pre st Hr Hq) as (t1 & st1 & Hrun & Hb & Hc & Hr1 & Hi & Ht & _);
    [lia|].
  rewrite Hidx in Hi, Ht. rewrite take_0 in Ht. simpl in Hi, Ht.
  pose proof (step_interrupt cfg N st1 s Hr1) as Hstep.
  exists (t1 ++ fst (step cfg st1 (interrupt s))). split.
  - intros rest. rewrite (run_app cfg pre _ st st1 t1 Hrun).
    rewrite run_cons, Hstep. reflexivity.
  - rewrite Hstep, batches_app, sent_counts_app, Hb, Hc, Ht, Hi.
    destruct (decide (0 < length (arrivals pre))) as [Hpos|Hzero];
      destruct (decide (arrivals pre = [])) as [Ha|Ha].
    + rewrite Ha in Hpos. simpl in Hpos. lia.
    + split; reflexivity.
    + split; reflexivity.
    + exfalso. apply Ha, length_zero_iff_nil. lia.
Qed.

Lemma C2_partial_flush_on_shutdown_witness :
  exists tr,
    (forall rest,
       run cfg3 (start 3 graphite)
           ([metrics (pt 1); ticker; metrics (pt 2)] ++ interrupt SIGTERM :: rest)
         = (tr, Returned "Daemon was killed" None)) /\
    batches tr = [[pt 1; pt 2]] /\
    sent_counts tr = [2].
Proof.
  apply (C2_partial_flush_on_shutdown cfg3 3 (start 3 graphite)
           [metrics (pt 1); ticker; metrics (pt 2)] SIGTERM).
  - split; simpl; lia.
  - reflexivity.
  - reflexivity.
  - simpl. lia.
Defined.

(** Every state the loop reaches is ready for the next event. *)
Lemma reachable_ready (cfg : config.Configuration) (N : nat) (b : backend.Backend)
    (st : Loop) :
  0 < N -> reachable cfg N b st -> ready N st.
Proof.
  intros HN Hreach. induction Hreach as [|st st' ev tr _ IH Hstep].
  - apply ready_start. exact HN.
  - exact (step_ready cfg N st st' ev tr IH Hstep).
Qed.

(** C3 (cursor invariant).  In every state the loop reaches, the buffer has
    its [N] slots and the cursor lies in [0, N].  From such a state, a Point
    that brings the cursor to [N] is the one event that sends the whole
    buffer and resets the cursor to 0; any other Point is stored without a
    send and advances the cursor by one; the timers send nothing and leave
    the state alone; a termination signal sends the slice [0, cursor) when
    the cursor is positive, nothing otherwise, and returns. *)
Theorem C3_cursor_invariant (cfg : config.Configuration) (N : nat)
    (b : backend.Backend) (st : Loop) :
  0 < N -> reachable cfg N b st ->
  length (pointbuffer st) = N /\
  bufferindex st <= N /\
  forall ev tr nxt, step cfg st ev = (tr, nxt) ->
    match ev with
    | metrics p =>
        exists st', nxt = Continue st' /\ length (pointbuffer st') = N /\
          if decide (S (bufferindex st) = N)
          then batches tr = [<[bufferindex st := p]> (pointbuffer st)] /\
               bufferindex st' = 0
          else batches tr = [] /\ bufferindex st' = S (bufferindex st) /\
               bufferindex st' < N
    | ticker | memtimer _ => batches tr = [] /\ nxt = Continue st
    | interrupt s =>
        nxt = Return (status_of s) None /\
        batches tr = if decide (0 < bufferindex st)
                     then [take (bufferindex st) (pointbuffer st)]
                     else []
    end.
Proof.
  intros HN Hreach.
  pose proof (reachable_ready cfg N b st HN Hreach) as Hr.
  pose proof Hr as [Hlen Hidx].
  split; [exact Hlen|]. split; [lia|].
  intros ev tr nxt Hstep. destruct ev as [p| |Sys|s].
  - destruct (decide (S (bufferindex st) = N)) as [Heq|Hne].
    + rewrite (step_metrics_flush cfg N st p Hr Heq) in Hstep. cbv zeta in Hstep.
      inversion Hstep; subst tr nxt. eexists. split; [reflexivity|].
      simpl. split; [apply length_replicate|]. split; reflexivity.
    + rewrite (step_metrics_store cfg N st p Hr) in Hstep by lia.
      inversion Hstep; subst tr nxt. eexists. split; [reflexivity|].
      simpl. split; [rewrite length_insert; exact Hlen|].
      split; [reflexivity|]. split; [reflexivity|lia].
  - simpl in Hstep. inversion Hstep; subst. split; [apply batches_retrieve|reflexivity].
  - simpl in Hstep. inversion Hstep; subst. split; reflexivity.
  - rewrite (step_interrupt cfg N st s Hr) in Hstep.
    inversion Hstep; subst tr nxt. split; [reflexivity|].
    destruct (decide (0 < bufferindex st)); reflexivity.
Qed.

Lemma C3_cursor_invariant_witness :
  length (pointbuffer one_stored) = 3 /\
  bufferindex one_stored <= 3 /\
  forall ev tr nxt, step cfg3 one_stored ev = (tr, nxt) ->
    match ev with
    | metrics p =>
        exists st', nxt = Continue st' /\ length (pointbuffer st') = 3 /\
          if decide (S (bufferindex one_stored) = 3)
          then batches tr = [<[bufferindex one_stored := p]> (pointbuffer one_stored)] /\
               bufferindex st' = 0
          else batches tr = [] /\ bufferindex st' = S (bufferindex one_stored) /\
               bufferindex st' < 3
    | ticker | memtimer _ => batches tr = [] /\ nxt = Continue one_stored
    | interrupt s =>
        nxt = Return (status_of s) None /\
        batches tr = if decide (0 < bufferindex one_stored)
                     then [take (bufferindex one_stored) (pointbuffer one_stored)]
                     else []
    end.
Proof.
  apply (C3_cursor_invariant cfg3 3 graphite one_stored).
  - lia.
  - apply (reachable_step cfg3 3 graphite (start 3 graphite) _ (metrics (pt 1)) []).
    + apply reachable_start.
    + reflexivity.
Defined.

(** ** Backend failures and the health timer *)




(** C9 (health reporter).  The [memtimer] case collects garbage, reads the
    memory statistics and logs the size read, and nothing else: the buffer,
    the cursor and the backend are the ones it found, the loop goes round
    again, and the events that follow are handled from the unchanged
    state. *)
Theorem C9_memtimer_frame (cfg : config.Configuration) (st : Loop) (Sys : Z)
    (evs : list Event) :
  step cfg st (memtimer Sys) =
    ([RuntimeGC; ReadMemStats; Stdlog (MemoryUsage Sys)], Continue st) /\
  batches [RuntimeGC; ReadMemStats; Stdlog (MemoryUsage Sys)] = [] /\
  run cfg st (memtimer Sys :: evs) =
    ([RuntimeGC; ReadMemStats; Stdlog (MemoryUsage Sys)] ++ fst (run cfg st evs),
     snd (run cfg st evs)).
Proof.
  split; [reflexivity|]. split; [reflexivity|].
  destruct (run cfg st evs) as [tr' out] eqn:Hrun.
  exact (run_continue cfg st st (memtimer Sys) evs _ tr' out eq_refl Hrun).
Qed.

(** ** Start-up and shutdown of [Manage] *)

Lemma defaultFlushSize_nonzero (c : config.Configuration) :
  config.FlushSize (defaultFlushSize c) <> 0%Z.
Proof.
  unfold defaultFlushSize. destruct (decide (config.FlushSize c = 0%Z)) as [H|H].
  - simpl. discriminate.
  - exact H.
Qed.

(** The profiling block starts no query task and no timer. *)
Lemma profiling_no_polls (w : World) (c : config.Configuration) :
  existsb polls (fst (fst (profiling w c))) = false /\
  existsb polls (snd (profiling w c)) = false /\
  batches (fst (fst (profiling w c))) = [] /\
  batches (snd (profiling w c)) = [].
Proof.
  unfold profiling. destruct (config.Profiling c); [|repeat split].
  destruct (TempFile w); [repeat split|].
  destruct (StartProfile w); repeat split.
Qed.

Lemma existsb_polls_inits (ms : list string) (vs : list vsphere.VCenter) :
  existsb polls (map (fun v => VCenterInit v ms) vs) = false.
Proof. induction vs as [|v vs IH]; [reflexivity | exact IH]. Qed.

Lemma batches_inits (ms : list string) (vs : list vsphere.VCenter) :
  batches (map (fun v => VCenterInit v ms) vs) = [].
Proof. induction vs as [|v vs IH]; [reflexivity | exact IH]. Qed.

(** What [Manage] does when the backend cannot be initialised. *)
Lemma Manage_init_failure (w : World) (cfg : config.Configuration) (err : string) :
  reaches_init w cfg -> backend.Init (config.Backend cfg) = Some err ->
  exists tr,
    existsb polls tr = false /\
    batches tr = [] /\
    forall evs,
      Manage (with_selected w evs) =
        (tr, Returned "Could not initialize backend" (Some err)).
Proof.
  intros (prog & decoded & HArgs & HOpen & HDecode & Hprof & Hcfg) Hinit.
  destruct (profiling_no_polls w (defaultFlushSize decoded)) as (Hp1 & Hp2 & Hb1 & Hb2).
  destruct (profiling w (defaultFlushSize decoded)) as [[t1 stop] d1] eqn:Hp.
  simpl in Hprof, Hp1, Hp2, Hb1, Hb2. subst stop.
  exists ([Stdlog (StartingDaemon prog)] ++ t1
            ++ (map (fun v => VCenterInit v (config.Metrics cfg)) (config.VCenters cfg)
                  ++ [BackendInit (Some err)])
            ++ d1).
  split; [|split].
  - rewrite !existsb_app, Hp1, Hp2, existsb_polls_inits. reflexivity.
  - rewrite !batches_app, Hb1, Hb2, batches_inits. reflexivity.
  - intros evs. unfold Manage. simpl Args. simpl Open. simpl Decode.
    rewrite HArgs, HOpen, HDecode.
    change (profiling (with_selected w evs) (defaultFlushSize decoded))
      with (profiling w (defaultFlushSize decoded)).
    rewrite Hp.
    change (Getenv (with_selected w evs)) with (Getenv w).
    fold (effective w decoded). rewrite <- Hcfg.
    unfold pipeline. rewrite Hinit. reflexivity.
Qed.

(** What [Manage] does once start-up has succeeded: the loop runs from the
    empty buffer, between the start-up calls and the deferred ones. *)
Lemma Manage_loop (w : World) (cfg : config.Configuration) :
  enters_loop w cfg ->
  (0 < Z.to_nat (config.FlushSize cfg)) /\
  exists before ds,
    forall evs,
      let st0 := start (Z.to_nat (config.FlushSize cfg)) (config.Backend cfg) in
      Manage (with_selected w evs) =
        (before ++ fst (run cfg st0 evs) ++ deferred (snd (run cfg st0 evs)) ds,
         snd (run cfg st0 evs)).
Proof.
  intros [(prog & decoded & HArgs & HOpen & HDecode & Hprof & Hcfg) (Hinit & Hsize & Hd)].
  split.
  - pose proof (defaultFlushSize_nonzero decoded) as Hnz.
    assert (config.FlushSize cfg = config.FlushSize (defaultFlushSize decoded))
      by (rewrite Hcfg; reflexivity).
    lia.
  - destruct (profiling w (defaultFlushSize decoded)) as [[t1 stop] d1] eqn:Hp.
    simpl in Hprof. subst stop.
    eexists _, _. intros evs st0.
    unfold Manage. simpl Args. simpl Open. simpl Decode.
    rewrite HArgs, HOpen, HDecode.
    change (profiling (with_selected w evs) (defaultFlushSize decoded))
      with (profiling w (defaultFlushSize decoded)).
    rewrite Hp.
    change (Getenv (with_selected w evs)) with (Getenv w).
    fold (effective w decoded). rewrite <- Hcfg.
    unfold pipeline. rewrite Hinit.
    rewrite decide_False by lia.
    rewrite decide_False by lia.
    change (selected (with_selected w evs)) with evs.
    fold st0. destruct (run cfg st0 evs) as [t4 out]. simpl fst. simpl snd.
    rewrite !app_assoc. reflexivity.
Qed.

(** What [Manage] does when a signal arrives after start-up: the trace but
    for its "Got signal" line, and the nil error, are the same for every
    signal. *)
Lemma Manage_signal (w : World) (cfg : config.Configuration) (pre : list Event) :
  enters_loop w cfg -> quiet pre = true ->
  exists before after,
    forall s rest,
      Manage (with_selected w (pre ++ interrupt s :: rest)) =
        (before ++ Stdlog (GotSignal s) :: after, Returned (status_of s) None).
Proof.
  intros Henter Hq.
  destruct (Manage_loop w cfg Henter) as (HN & before & ds & HManage).
  set (N := Z.to_nat (config.FlushSize cfg)) in *.
  set (st0 := start N (config.Backend cfg)) in *.
  destruct (run_quiet cfg N pre st0 (ready_start N _ HN) Hq) as (t1 & st1 & Hrun & Hr1).
  exists (before ++ t1).
  exists ((if decide (0 < bufferindex st1) then
             [BackendSendMetrics (take (bufferindex st1) (pointbuffer st1))
                (snd (backend.SendMetrics (Backend st1)
                        (take (bufferindex st1) (pointbuffer st1))));
              Stdlog (SentLogs (bufferindex st1))]
           else []) ++ ds).
  intros s rest. rewrite HManage. cbv zeta. fold st0.
  rewrite (run_app cfg pre _ st0 st1 t1 Hrun).
  rewrite run_cons, (step_interrupt cfg N st1 s Hr1).
  simpl fst. simpl snd. unfold deferred.
  rewrite <- !app_assoc. reflexivity.
Qed.

(** C7 (backend initialisation failure).  When [Manage] gets as far as
    [Backend.Init] and [Init] returns an error, [Manage] returns
    "Could not initialize backend" with that error.  Its trace holds no
    query task, no timer and no [SendMetrics] call, and is the same whatever
    events the [select] would have received: the loop is not entered.
    [main] then writes the status and the error to the error log and exits
    with status 1. *)
Theorem C7_backend_init_failure (w : World) (cfg : config.Configuration)
    (err : string) :
  daemonNew w = None -> reaches_init w cfg ->
  backend.Init (config.Backend cfg) = Some err ->
  exists tr,
    existsb polls tr = false /\
    batches tr = [] /\
    forall evs,
      Manage (with_selected w evs) =
        (tr, Returned "Could not initialize backend" (Some err)) /\
      main (with_selected w evs) =
        (tr ++ [Errlog (ErrorLine (Some "Could not initialize backend") err)], Exit 1).
Proof.
  intros Hnew Hreach Hinit.
  destruct (Manage_init_failure w cfg err Hreach Hinit) as (tr & Hpolls & Hb & HManage).
  exists tr. split; [exact Hpolls|]. split; [exact Hb|].
  intros evs. split; [apply HManage|].
  unfold main. change (daemonNew (with_selected w evs)) with (daemonNew w).
  rewrite Hnew, HManage. reflexivity.
Qed.

Lemma C7_backend_init_failure_witness :
  exists tr,
    existsb polls tr = false /\
    batches tr = [] /\
    forall evs,
      Manage (with_selected world_refused evs) =
        (tr, Returned "Could not initialize backend"
               (Some "dial tcp: connection refused")) /\
      main (with_selected world_refused evs) =
        (tr ++ [Errlog (ErrorLine (Some "Could not initialize backend")
                          "dial tcp: connection refused")], Exit 1).
Proof.
  apply (C7_backend_init_failure world_refused
           (effective world_refused (config.withBackend cfg3 refusing))
           "dial tcp: connection refused").
  - reflexivity.
  - exists "vsphere-graphite", (config.withBackend cfg3 refusing).
    repeat split.
  - reflexivity.
Defined.

(** C8 (exit messages).  After a successful start-up, a termination signal
    makes [Manage] return with a nil error whichever signal it is.  The
    status is "Daemon was interrupted by system signal" for the interrupt
    and "Daemon was killed" for the two others, and the two texts differ.
    Apart from the status, the signal shows only in the "Got signal" line:
    the calls before and after that line are the same for every signal. *)
Theorem C8_exit_messages (w : World) (cfg : config.Configuration)
    (pre : list Event) :
  enters_loop w cfg -> quiet pre = true ->
  (exists before after,
     forall s rest,
       Manage (with_selected w (pre ++ interrupt s :: rest)) =
         (before ++ Stdlog (GotSignal s) :: after, Returned (status_of s) None)) /\
  status_of os_Interrupt = "Daemon was interrupted by system signal" /\
  status_of os_Kill = "Daemon was killed" /\
  status_of SIGTERM = "Daemon was killed" /\
  status_of os_Interrupt <> status_of os_Kill.
Proof.
  intros Henter Hq. split; [exact (Manage_signal w cfg pre Henter Hq)|].
  repeat split. discriminate.
Qed.

Lemma enters_loop_world3 (evs : list Event) : enters_loop (world3 evs) cfg3.
Proof.
  split; [|repeat split; vm_compute; congruence].
  exists "vsphere-graphite", cfg3. repeat split.
Defined.

Lemma C8_exit_messages_witness :
  (exists before after,
     forall s rest,
       Manage (with_selected (world3 []) ([metrics (pt 1); ticker] ++ interrupt s :: rest)) =
         (before ++ Stdlog (GotSignal s) :: after, Returned (status_of s) None)) /\
  status_of os_Interrupt = "Daemon was interrupted by system signal" /\
  status_of os_Kill = "Daemon was killed" /\
  status_of SIGTERM = "Daemon was killed" /\
  status_of os_Interrupt <> status_of os_Kill.
Proof.
  apply (C8_exit_messages (world3 []) cfg3 [metrics (pt 1); ticker]).
  - apply enters_loop_world3.
  - reflexivity.
Defined.

(** [main] when the [select] receives a signal after start-up. *)
Lemma main_on_signal (w : World) (cfg : config.Configuration)
    (pre : list Event) (s : Signal) (rest : list Event) :
  daemonNew w = None -> enters_loop w cfg -> quiet pre = true ->
  exists tr,
    Manage (with_selected w (pre ++ interrupt s :: rest)) =
      (tr, Returned (status_of s) None) /\
    main (with_selected w (pre ++ interrupt s :: rest)) =
      (tr ++ [Println (status_of s)], Exit 0).
Proof.
  intros Hnew Henter Hq.
  destruct (Manage_signal w cfg pre Henter Hq) as (before & after & HManage).
  eexists. split; [apply HManage|].
  unfold main.
  change (daemonNew (with_selected w (pre ++ interrupt s :: rest))) with (daemonNew w).
  rewrite Hnew, HManage. reflexivity.
Qed.

(** ** The end-to-end scenarios of the specification, evaluated *)

(** Capacity 3, Points a1, a2 from one source and b1 from another: one
    dispatch of the three Points in arrival order, cursor back at 0. *)
Example scenario_two_sources :
  run cfg3 (start 3 graphite) [metrics (pt 1); metrics (pt 10); metrics (pt 2)] =
    ([BackendSendMetrics [pt 1; pt 10; pt 2] None; Stdlog (SentLogs 3)],
     Waiting (start 3 graphite)).
Proof. reflexivity. Qed.

(** Fewer Points than the capacity, then an interrupt: one dispatch of what
    has arrived, the interrupt status printed, exit status 0. *)
Example scenario_interrupt :
  snd (main (world3 [metrics (pt 1); metrics (pt 2); interrupt os_Interrupt])) = Exit 0 /\
  batches (fst (main (world3 [metrics (pt 1); metrics (pt 2); interrupt os_Interrupt])))
    = [[pt 1; pt 2]] /\
  last (fst (main (world3 [metrics (pt 1); metrics (pt 2); interrupt os_Interrupt])))
    = Some (Println "Daemon was interrupted by system signal").
Proof. repeat split. Qed.

(** A negative flush size makes [make] panic once the backend is
    initialised; the deferred [Disconnect] still runs. *)
Example scenario_negative_flush_size :
  main {| Args := ["vsphere-graphite"]; daemonNew := None;
          Install := ("", None); Remove := ("", None); Start := ("", None);
          Stop := ("", None); Status := ("", None);
          Open := None; Decode := inr (config.withFlushSize cfg3 (-1));
          TempFile := None; StartProfile := None;
          Getenv := fun b => b; selected := [metrics (pt 1)] |} =
    ([Stdlog (StartingDaemon "vsphere-graphite");
      VCenterInit vc1 ["cpu.usage"]; BackendInit None; SignalNotify;
      BackendDisconnect],
     Exit 2).
Proof. reflexivity. Qed.

(** * Further properties of the loop *)

Lemma queries_app (t1 t2 : list Call) : queries (t1 ++ t2) = queries t1 ++ queries t2.
Proof.
  induction t1 as [|c t1 IH]; [reflexivity|].
  destruct c; simpl; rewrite IH; reflexivity.
Qed.

Lemma queries_retrieve (cfg : config.Configuration) :
  queries (retrieve cfg) = config.VCenters cfg.
Proof.
  unfold retrieve. simpl. induction (config.VCenters cfg) as [|v vs IH];
    [reflexivity | simpl; rewrite IH; reflexivity].
Qed.

Section Accounting.

Variable cfg : config.Configuration.
Variable N : nat.

(** The three ways an iteration can go from a ready state. *)
Lemma step_ready_cases (st : Loop) (ev : Event) :
  ready N st ->
  (exists tr st', step cfg st ev = (tr, Continue st') /\ ready N st' /\
     batches tr = [] /\ sent_counts tr = [] /\
     take (bufferindex st') (pointbuffer st') =
       take (bufferindex st) (pointbuffer st) ++ arrivals [ev] /\
     queries tr = concat (replicate (ticks [ev]) (config.VCenters cfg)) /\
     is_interrupt ev = false) \/
  (exists tr st' p, ev = metrics p /\ step cfg st ev = (tr, Continue st') /\
     ready N st' /\ bufferindex st' = 0 /\
     batches tr = [take (bufferindex st) (pointbuffer st) ++ [p]] /\
     sent_counts tr = [N] /\ queries tr = [] /\
     S (bufferindex st) = N) \/
  (exists tr s, ev = interrupt s /\
     step cfg st ev = (tr, Return (status_of s) None) /\
     concat (batches tr) = take (bufferindex st) (pointbuffer st) /\
     sent_counts tr = map length (batches tr) /\
     Forall (fun b => 0 < length b <= N) (batches tr) /\
     queries tr = []).
Proof.
  intros Hr. pose proof Hr as [Hlen Hidx]. destruct ev as [p| |Sys|s].
  - destruct (decide (S (bufferindex st) = N)) as [Heq|Hne].
    + right; left.
      pose proof (step_metrics_flush cfg N st p Hr Heq) as Hstep. cbv zeta in Hstep.
      rewrite insert_last in Hstep by lia.
      eexists _, _, p. split; [reflexivity|]. split; [exact Hstep|].
      split; [split; simpl; [apply length_replicate|lia]|].
      repeat split. exact Heq.
    + left.
      pose proof (step_metrics_store cfg N st p Hr ltac:(lia)) as Hstep.
      eexists _, _. split; [exact Hstep|].
      split; [exact (step_ready cfg N _ _ _ _ Hr Hstep)|].
      split; [reflexivity|]. split; [reflexivity|]. split; [|split; reflexivity].
      simpl. rewrite (take_S_r _ _ p) by (apply list_lookup_insert_eq; lia).
      rewrite take_insert_ge by lia. reflexivity.
  - left. exists (retrieve cfg), st. split; [reflexivity|]. split; [exact Hr|].
    split; [apply batches_retrieve|]. split; [apply sent_counts_retrieve|].
    split; [simpl; rewrite app_nil_r; reflexivity|].
    split; [|reflexivity].
    rewrite queries_retrieve. simpl. rewrite app_nil_r. reflexivity.
  - left. eexists _, st. split; [reflexivity|]. split; [exact Hr|].
    split; [reflexivity|]. split; [reflexivity|].
    split; [simpl; rewrite app_nil_r; reflexivity|].
    split; reflexivity.
  - right; right.
    pose proof (step_interrupt cfg N st s Hr) as Hstep.
    eexists _, s. split; [reflexivity|]. split; [exact Hstep|].
    destruct (decide (0 < bufferindex st)) as [Hpos|Hzero]; simpl.
    + rewrite app_nil_r. split; [reflexivity|].
      rewrite length_take_le by lia.
      split; [reflexivity|]. split; [|reflexivity].
      constructor; [|constructor]. rewrite length_take_le by lia. lia.
    + replace (bufferindex st) with 0 by lia.
      repeat split. constructor.
Qed.

(** What a signal-free run from a ready state amounts to. *)
Lemma run_quiet_account (evs : list Event) (st : Loop) :
  ready N st -> quiet evs = true ->
  exists tr st1,
    run cfg st evs = (tr, Waiting st1) /\ ready N st1 /\
    concat (batches tr) ++ take (bufferindex st1) (pointbuffer st1) =
      take (bufferindex st) (pointbuffer st) ++ arrivals evs /\
    Forall (fun b => length b = N) (batches tr) /\
    sent_counts tr = map length (batches tr) /\
    queries tr = concat (replicate (ticks evs) (config.VCenters cfg)).
Proof.
  revert st. induction evs as [|ev evs IH]; intros st Hr Hq.
  - exists [], st. simpl. rewrite app_nil_r.
    split; [reflexivity|]. split; [exact Hr|]. repeat split. constructor.
  - simpl in Hq. apply andb_true_iff in Hq as [Hev Hq].
    pose proof Hr as [Hlen Hidx].
    destruct (step_ready_cases st ev Hr)
      as [(tr0 & st' & Hstep & Hr' & Hb0 & Hc0 & Ht0 & Hq0 & _)
         |[(tr0 & st' & p & -> & Hstep & Hr' & Hi0 & Hb0 & Hc0 & Hq0 & Hfull)
          |(tr0 & s & -> & _)]];
      [| |discriminate].
    + destruct (IH st' Hr' Hq) as (tr & st1 & Hrun & Hr1 & Hcons & Hall & Hcnt & Hqs).
      exists (tr0 ++ tr), st1.
      split; [exact (run_continue _ _ _ _ _ _ _ _ Hstep Hrun)|].
      split; [exact Hr1|].
      rewrite batches_app, sent_counts_app, queries_app, Hb0, Hc0, Hq0. simpl.
      split; [|split; [exact Hall|split; [exact Hcnt|]]].
      * rewrite Hcons, Ht0. rewrite <- app_assoc.
        destruct ev; try reflexivity.
      * rewrite Hqs. destruct ev; simpl; rewrite ?app_nil_r; reflexivity.
    + destruct (IH st' Hr' Hq) as (tr & st1 & Hrun & Hr1 & Hcons & Hall & Hcnt & Hqs).
      exists (tr0 ++ tr), st1.
      split; [exact (run_continue _ _ _ _ _ _ _ _ Hstep Hrun)|].
      split; [exact Hr1|].
      rewrite batches_app, sent_counts_app, queries_app, Hb0, Hc0, Hq0. simpl.
      rewrite Hi0, take_0 in Hcons. simpl in Hcons.
      split; [|split; [|split]].
      * rewrite <- !app_assoc. rewrite Hcons. reflexivity.
      * constructor; [|exact Hall]. rewrite length_app, length_take_le by lia.
        simpl. lia.
      * rewrite Hcnt. rewrite length_app, length_take_le by lia. simpl.
        f_equal. lia.
      * exact Hqs.
Qed.

End Accounting.

Section Dispatch.

Variable cfg : config.Configuration.
Variable N : nat.

(** What any run from a ready state amounts to, with or without a signal. *)
Lemma run_any (evs : list Event) (st : Loop) :
  ready N st ->
  exists tr out,
    run cfg st evs = (tr, out) /\
    sent_counts tr = map length (batches tr) /\
    Forall (fun b => 0 < length b <= N) (batches tr) /\
    match out with
    | Waiting st1 => ready N st1 /\ quiet evs = true
    | Returned status err =>
        err = None /\
        exists pre s rest, evs = pre ++ interrupt s :: rest /\ quiet pre = true /\
                           status = status_of s
    | Fatal | Panicked => False
    end.
Proof.
  revert st. induction evs as [|ev evs IH]; intros st Hr.
  - exists [], (Waiting st). repeat split; try constructor; apply Hr.
  - pose proof Hr as [Hlen Hidx].
    destruct (step_ready_cases cfg N st ev Hr)
      as [(tr0 & st' & Hstep & Hr' & Hb0 & Hc0 & _ & _ & Hni)
         |[(tr0 & st' & p & -> & Hstep & Hr' & _ & Hb0 & Hc0 & _ & Hfull)
          |(tr0 & s & -> & Hstep & _ & Hc0 & Hall0 & _)]].
    + destruct (IH st' Hr') as (tr & out & Hrun & Hcnt & Hall & Hout).
      exists (tr0 ++ tr), out.
      split; [exact (run_continue _ _ _ _ _ _ _ _ Hstep Hrun)|].
      rewrite batches_app, sent_counts_app, Hb0, Hc0. simpl.
      split; [exact Hcnt|]. split; [exact Hall|].
      destruct out as [status err| | |st1]; try contradiction.
      * destruct Hout as (-> & pre & s & rest & -> & Hq & ->).
        split; [reflexivity|]. exists (ev :: pre), s, rest.
        split; [reflexivity|]. split; [|reflexivity].
        simpl. rewrite Hni, Hq. reflexivity.
      * destruct Hout as [Hr1 Hq]. split; [exact Hr1|].
        simpl. rewrite Hni, Hq. reflexivity.
    + destruct (IH st' Hr') as (tr & out & Hrun & Hcnt & Hall & Hout).
      exists (tr0 ++ tr), out.
      split; [exact (run_continue _ _ _ _ _ _ _ _ Hstep Hrun)|].
      rewrite batches_app, sent_counts_app, Hb0, Hc0. simpl.
      rewrite length_app, length_take_le by lia. simpl.
      split; [replace (bufferindex st + 1) with N by lia; rewrite Hcnt; reflexivity|].
      split; [constructor;
                [rewrite length_app, length_take_le by lia; simpl; lia|exact Hall]|].
      destruct out as [status err| | |st1]; try contradiction.
      * destruct Hout as (-> & pre & s & rest & -> & Hq & ->).
        split; [reflexivity|]. exists (metrics p :: pre), s, rest.
        split; [reflexivity|]. split; [exact Hq|reflexivity].
      * destruct Hout as [Hr1 Hq]. split; [exact Hr1|exact Hq].
    + exists tr0, (Returned (status_of s) None).
      split; [rewrite run_cons, Hstep; reflexivity|].
      split; [exact Hc0|]. split; [exact Hall0|].
      split; [reflexivity|]. exists [], s, evs. repeat split.
Qed.

(** X1.  Dispatch is first-in first-out and loses nothing: after any
    signal-free run from a ready state, the batches sent, put end to end and
    followed by the filled part of the buffer, are exactly the Points that
    were in the buffer followed by the Points that arrived, in arrival
    order; and every batch sent is a full one. *)
Theorem dispatch_is_fifo (st : Loop) (evs : list Event) :
  ready N st -> quiet evs = true ->
  exists tr st1,
    run cfg st evs = (tr, Waiting st1) /\
    concat (batches tr) ++ take (bufferindex st1) (pointbuffer st1) =
      take (bufferindex st) (pointbuffer st) ++ arrivals evs /\
    Forall (fun b => length b = N) (batches tr).
Proof.
  intros Hr Hq.
  destruct (run_quiet_account cfg N evs st Hr Hq)
    as (tr & st1 & Hrun & _ & Hcons & Hall & _).
  exists tr, st1. auto.
Qed.

(** X2.  After a signal-free run that starts with the cursor at [i] and
    receives [n] Points, the number of batches sent is the quotient of
    [i + n] by the capacity and the cursor is the remainder. *)
Theorem batch_count_and_cursor (st : Loop) (evs : list Event) :
  ready N st -> quiet evs = true ->
  exists tr st1,
    run cfg st evs = (tr, Waiting st1) /\
    length (batches tr) = (bufferindex st + length (arrivals evs)) / N /\
    bufferindex st1 = (bufferindex st + length (arrivals evs)) mod N.
Proof.
  intros Hr Hq.
  destruct (run_quiet_account cfg N evs st Hr Hq)
    as (tr & st1 & Hrun & Hr1 & Hcons & Hall & _).
  exists tr, st1. split; [exact Hrun|].
  destruct Hr as [Hlen Hidx], Hr1 as [Hlen1 Hidx1].
  apply (f_equal length) in Hcons.
  rewrite !length_app, !length_take_le in Hcons by lia.
  assert (Hsum : length (concat (batches tr)) = N * length (batches tr)).
  { clear Hcons. induction Hall as [|b bs Hb _ IH]; simpl; [lia|].
    rewrite length_app, IH, Hb. lia. }
  rewrite Hsum in Hcons.
  split.
  - apply (Nat.div_unique _ _ _ (bufferindex st1)); lia.
  - apply (Nat.mod_unique _ _ (length (batches tr))); lia.
Qed.

(** A run up to its first signal. *)
Lemma run_until_signal (st : Loop) (pre : list Event) (s : Signal) :
  ready N st -> quiet pre = true ->
  exists tr,
    (forall rest,
       run cfg st (pre ++ interrupt s :: rest) = (tr, Returned (status_of s) None)) /\
    concat (batches tr) = take (bufferindex st) (pointbuffer st) ++ arrivals pre.
Proof.
  intros Hr Hq.
  destruct (run_quiet_account cfg N pre st Hr Hq)
    as (t1 & st1 & Hrun & Hr1 & Hcons & _).
  destruct (step_ready_cases cfg N st1 (interrupt s) Hr1)
    as [(t2 & st2 & _ & _ & _ & _ & _ & _ & Habs)
       |[(t2 & st2 & p & Habs & _)|(t2 & s' & Heq & Hstep & Hlast & _)]];
    try discriminate.
  inversion Heq; subst s'.
  exists (t1 ++ t2). split.
  - intros rest. rewrite (run_app cfg pre _ st st1 t1 Hrun).
    rewrite run_cons, Hstep. reflexivity.
  - rewrite batches_app, concat_app, Hlast. exact Hcons.
Qed.

(** X3.  A graceful shutdown hands over everything: from a ready state, the
    batches sent up to and including the shutdown flush, put end to end, are
    the Points that were in the buffer followed by all the Points that
    arrived before the signal, in arrival order; events after the signal
    change nothing. *)
Theorem shutdown_delivers_all (st : Loop) (pre : list Event) (s : Signal) :
  ready N st -> quiet pre = true ->
  exists tr,
    (forall rest,
       run cfg st (pre ++ interrupt s :: rest) = (tr, Returned (status_of s) None)) /\
    concat (batches tr) = take (bufferindex st) (pointbuffer st) ++ arrivals pre.
Proof. exact (run_until_signal st pre s). Qed.

(** X4.  Every "Sent %d logs to backend" line tells the size of the batch
    just handed to the backend: in any run from a ready state the counts
    logged are the lengths of the batches sent, one for one and in order. *)
Theorem sent_lines_match_batches (st : Loop) (evs : list Event) :
  ready N st ->
  sent_counts (fst (run cfg st evs)) = map length (batches (fst (run cfg st evs))).
Proof.
  intros Hr. destruct (run_any evs st Hr) as (tr & out & Hrun & Hcnt & _).
  rewrite Hrun. exact Hcnt.
Qed.

(** X5.  The backend is never handed an empty batch nor one larger than the
    buffer: in any run from a ready state every batch sent has between 1
    and [N] Points. *)
Theorem batches_within_capacity (st : Loop) (evs : list Event) :
  ready N st ->
  Forall (fun b => 0 < length b <= N) (batches (fst (run cfg st evs))).
Proof.
  intros Hr. destruct (run_any evs st Hr) as (tr & out & Hrun & _ & Hall & _).
  rewrite Hrun. exact Hall.
Qed.

(** X6.  From a ready state the loop never indexes or slices the buffer out
    of range, and it ends in one way only: it returns, with a nil error,
    exactly when a signal is among the events (the status being that of the
    first signal), and otherwise waits for the next event. *)
Theorem loop_ends_only_on_signal (st : Loop) (evs : list Event) :
  ready N st ->
  if quiet evs
  then exists st1, snd (run cfg st evs) = Waiting st1
  else exists pre s rest,
         evs = pre ++ interrupt s :: rest /\ quiet pre = true /\
         snd (run cfg st evs) = Returned (status_of s) None.
Proof.
  intros Hr. destruct (run_any evs st Hr) as (tr & out & Hrun & _ & _ & Hout).
  rewrite Hrun. simpl.
  destruct out as [status err| | |st1]; try contradiction.
  - destruct Hout as (-> & pre & s & rest & -> & Hq & ->).
    replace (quiet (pre ++ interrupt s :: rest)) with false.
    + exists pre, s, rest. auto.
    + unfold quiet. rewrite forallb_app. simpl. rewrite andb_false_r. reflexivity.
  - destruct Hout as [_ Hq]. rewrite Hq. exists st1. reflexivity.
Qed.

End Dispatch.

(** X7.  Slots at and after the cursor hold the zero Point: in every state
    the loop reaches from its initial buffer, a slot that has not been
    written since the last flush reads back as [backend.Point{}]. *)
Theorem free_slots_are_zero (cfg : config.Configuration) (N : nat)
    (b : backend.Backend) (st : Loop) (i : nat) :
  0 < N -> reachable cfg N b st ->
  bufferindex st <= i -> i < N ->
  pointbuffer st !! i = Some backend.zero.
Proof.
  intros HN Hreach. revert i.
  induction Hreach as [|st st' ev tr Hreach IH Hstep]; intros i Hle Hlt.
  - simpl. apply lookup_replicate_2. exact Hlt.
  - pose proof (reachable_ready cfg N b st HN Hreach) as Hr.
    pose proof Hr as [Hlen Hidx].
    destruct ev as [p| |Sys|s].
    + destruct (decide (S (bufferindex st) = N)) as [Heq|Hne].
      * rewrite (step_metrics_flush cfg N st p Hr Heq) in Hstep. cbv zeta in Hstep.
        inversion Hstep; subst st'. simpl. apply lookup_replicate_2. exact Hlt.
      * rewrite (step_metrics_store cfg N st p Hr) in Hstep by lia.
        inversion Hstep; subst st'. simpl in Hle |- *.
        rewrite list_lookup_insert_ne by lia. apply IH; lia.
    + simpl in Hstep. inversion Hstep; subst st'. apply IH; assumption.
    + simpl in Hstep. inversion Hstep; subst st'. apply IH; assumption.
    + rewrite (step_interrupt cfg N st s Hr) in Hstep. discriminate.
Qed.

(** One iteration on two states with the same buffer and cursor. *)
Lemma step_same_buffer (cfg : config.Configuration) (st1 st2 : Loop) (ev : Event) :
  same_buffer st1 st2 ->
  batches (fst (step cfg st1 ev)) = batches (fst (step cfg st2 ev)) /\
  sent_counts (fst (step cfg st1 ev)) = sent_counts (fst (step cfg st2 ev)) /\
  queries (fst (step cfg st1 ev)) = queries (fst (step cfg st2 ev)) /\
  match snd (step cfg st1 ev), snd (step cfg st2 ev) with
  | Continue a, Continue b => same_buffer a b
  | Return s1 e1, Return s2 e2 => s1 = s2 /\ e1 = e2
  | Panic, Panic => True
  | _, _ => False
  end.
Proof.
  intros [Hbuf Hidx]. destruct ev as [p| |Sys|s]; unfold step.
  - rewrite Hbuf, Hidx.
    destruct (decide (bufferindex st2 < length (pointbuffer st2))); [|repeat split].
    destruct (decide (S (bufferindex st2)
                      = length (<[bufferindex st2 := p]> (pointbuffer st2))));
      [|repeat split].
    destruct (backend.SendMetrics (Backend st1) _) as [b1 r1].
    destruct (backend.SendMetrics (Backend st2) _) as [b2 r2].
    repeat split.
  - repeat split; assumption.
  - repeat split; assumption.
  - rewrite Hbuf, Hidx.
    destruct (decide (0 < bufferindex st2)); [|repeat split].
    destruct (decide (bufferindex st2 <= length (pointbuffer st2))); [|repeat split].
    destruct (backend.SendMetrics (Backend st1) _) as [b1 r1].
    destruct (backend.SendMetrics (Backend st2) _) as [b2 r2].
    repeat split.
Qed.

(** X8.  What the loop sends, logs and returns does not depend on what the
    backend answers: two runs over the same events, from states with the
    same buffer and cursor but any two backends, hand over the same batches,
    log the same counts, start the same queries and end alike.  No answer of
    the backend makes the loop retry, skip or stop. *)
Theorem backend_answers_are_ignored (cfg : config.Configuration)
    (st1 st2 : Loop) (evs : list Event) :
  same_buffer st1 st2 ->
  batches (fst (run cfg st1 evs)) = batches (fst (run cfg st2 evs)) /\
  sent_counts (fst (run cfg st1 evs)) = sent_counts (fst (run cfg st2 evs)) /\
  queries (fst (run cfg st1 evs)) = queries (fst (run cfg st2 evs)) /\
  same_outcome (snd (run cfg st1 evs)) (snd (run cfg st2 evs)).
Proof.
  revert st1 st2. induction evs as [|ev evs IH]; intros st1 st2 Hsame.
  - simpl. repeat split; apply Hsame.
  - rewrite !run_cons.
    destruct (step_same_buffer cfg st1 st2 ev Hsame) as (Hb & Hc & Hq & Hnext).
    destruct (step cfg st1 ev) as [t1 n1], (step cfg st2 ev) as [t2 n2].
    simpl in Hb, Hc, Hq, Hnext.
    destruct n1 as [a| |], n2 as [b| |]; try contradiction.
    + destruct (IH a b Hnext) as (Hb' & Hc' & Hq' & Ho').
      destruct (run cfg a evs) as [ta oa], (run cfg b evs) as [tb ob].
      simpl in *.
      rewrite !batches_app, !sent_counts_app, !queries_app.
      rewrite Hb, Hc, Hq, Hb', Hc', Hq'. repeat split. exact Ho'.
    + simpl. destruct Hnext as [-> ->]. repeat split; assumption.
    + simpl. repeat split; assumption.
Qed.

(** * Further properties of [Manage] and [main] *)

(** In range, 64-bit multiplication is the mathematical one. *)
Lemma wrap64_in_range (z : Z) :
  (- 2 ^ 63 <= z < 2 ^ 63)%Z -> wrap64 z = z.
Proof.
  intros Hz. unfold wrap64. rewrite Z.mod_small by lia. lia.
Qed.

(** The profiling block when it lets [Manage] go on. *)
Lemma profiling_passes (w : World) (c : config.Configuration) :
  snd (fst (profiling w c)) = None ->
  profiling w c =
    (if config.Profiling c then [Stdlog WillWriteProfile; StartCPUProfile None] else [],
     None,
     if config.Profiling c then [StopCPUProfile] else []).
Proof.
  unfold profiling. destruct (config.Profiling c); [|reflexivity].
  destruct (TempFile w); [discriminate|].
  destruct (StartProfile w); [discriminate|reflexivity].
Qed.

(** [Manage] once start-up has succeeded, call by call. *)
Lemma Manage_started (w : World) (cfg : config.Configuration) :
  enters_loop w cfg ->
  exists prog,
    Args w = [prog] /\
    forall evs,
      Manage (with_selected w evs) =
        (startup prog cfg
           ++ fst (run cfg (start (Z.to_nat (config.FlushSize cfg)) (config.Backend cfg)) evs)
           ++ deferred
                (snd (run cfg (start (Z.to_nat (config.FlushSize cfg)) (config.Backend cfg)) evs))
                (cleanup cfg),
         snd (run cfg (start (Z.to_nat (config.FlushSize cfg)) (config.Backend cfg)) evs)).
Proof.
  intros [(prog & decoded & HArgs & HOpen & HDecode & Hprof & Hcfg) (Hinit & Hsize & Hd)].
  exists prog. split; [exact HArgs|]. intros evs.
  assert (HP : config.Profiling cfg = config.Profiling (defaultFlushSize decoded))
    by (rewrite Hcfg; reflexivity).
  unfold Manage. simpl Args. simpl Open. simpl Decode.
  rewrite HArgs, HOpen, HDecode.
  change (profiling (with_selected w evs) (defaultFlushSize decoded))
    with (profiling w (defaultFlushSize decoded)).
  rewrite (profiling_passes w _ Hprof).
  change (Getenv (with_selected w evs)) with (Getenv w).
  fold (effective w decoded). rewrite <- Hcfg, <- HP.
  unfold pipeline. rewrite Hinit.
  rewrite decide_False by lia.
  rewrite decide_False by lia.
  change (selected (with_selected w evs)) with evs.
  destruct (run cfg _ evs) as [t4 out]. simpl fst. simpl snd.
  unfold startup, cleanup. rewrite <- !app_assoc. reflexivity.
Qed.

Lemma batches_startup (prog : string) (cfg : config.Configuration) :
  batches (startup prog cfg) = [].
Proof.
  unfold startup. rewrite !batches_app, batches_inits, batches_retrieve.
  destruct (config.Profiling cfg); reflexivity.
Qed.

Lemma queries_inits (ms : list string) (vs : list vsphere.VCenter) :
  queries (map (fun v => VCenterInit v ms) vs) = [].
Proof. induction vs as [|v vs IH]; [reflexivity | exact IH]. Qed.

Lemma queries_startup (prog : string) (cfg : config.Configuration) :
  queries (startup prog cfg) = config.VCenters cfg.
Proof.
  unfold startup. rewrite !queries_app, queries_inits, queries_retrieve.
  destruct (config.Profiling cfg); reflexivity.
Qed.

Lemma cleanup_quiet (cfg : config.Configuration) :
  batches (cleanup cfg) = [] /\ queries (cleanup cfg) = [] /\
  existsb works (cleanup cfg) = false.
Proof. unfold cleanup. destruct (config.Profiling cfg); repeat split. Qed.

(** X9.  One query task per configured vCenter is started when [Manage]
    enters its loop and at each tick of the ticker, and at no other moment:
    while no signal arrives, the tasks started are the configured vCenters,
    in their order, once more than there were ticks. *)
Theorem one_query_round_per_tick (w : World) (cfg : config.Configuration)
    (evs : list Event) :
  enters_loop w cfg -> quiet evs = true ->
  queries (fst (Manage (with_selected w evs))) =
    concat (replicate (S (ticks evs)) (config.VCenters cfg)).
Proof.
  intros Henter Hq.
  pose proof (Manage_loop w cfg Henter) as [HN _].
  destruct (Manage_started w cfg Henter) as (prog & _ & HManage).
  destruct (run_quiet_account cfg _ evs _ (ready_start _ (config.Backend cfg) HN) Hq)
    as (tr & st1 & Hrun & _ & _ & _ & _ & Hqs).
  rewrite HManage, Hrun. cbn [fst snd deferred].
  rewrite !queries_app, queries_startup, Hqs. simpl. rewrite app_nil_r. reflexivity.
Qed.

(** X10.  On a signal, everything received is sent before the clean-up:
    the trace of [Manage] ends with the deferred calls (memtimer stopped,
    ticker stopped, backend disconnected, profile stopped when profiling),
    none of which sends, queries or starts anything; and the batches sent
    before them, put end to end, are all the Points that arrived before the
    signal, in arrival order. *)
Theorem shutdown_sends_before_cleanup (w : World) (cfg : config.Configuration)
    (pre : list Event) (s : Signal) :
  enters_loop w cfg -> quiet pre = true ->
  exists body,
    (forall rest,
       Manage (with_selected w (pre ++ interrupt s :: rest)) =
         (body ++ cleanup cfg, Returned (status_of s) None)) /\
    concat (batches body) = arrivals pre /\
    existsb works (cleanup cfg) = false.
Proof.
  intros Henter Hq.
  pose proof (Manage_loop w cfg Henter) as [HN _].
  destruct (Manage_started w cfg Henter) as (prog & _ & HManage).
  destruct (run_until_signal cfg _ _ pre s
              (ready_start _ (config.Backend cfg) HN) Hq) as (tr & Hrun & Hcat).
  exists (startup prog cfg ++ tr). split; [|split].
  - intros rest. rewrite HManage, Hrun. cbn [fst snd deferred].
    rewrite <- app_assoc. reflexivity.
  - rewrite batches_app, batches_startup. simpl. exact Hcat.
  - apply cleanup_quiet.
Qed.

(** X11.  Over the events its [select] can receive (Points, ticks of the
    two timers, [os.Interrupt] and [SIGTERM]) and once start-up has
    succeeded, [main] is still running as long as none of them is a signal
    and has exited with status 0 once one is: no Point, tick or answer of
    the backend makes [Manage] return, fail or panic. *)
Theorem exits_only_on_signal (w : World) (cfg : config.Configuration)
    (evs : list Event) :
  daemonNew w = None -> enters_loop w cfg -> deliverable evs = true ->
  snd (main (with_selected w evs)) = if quiet evs then Running else Exit 0.
Proof.
  intros Hnew Henter _.
  pose proof (Manage_loop w cfg Henter) as [HN _].
  destruct (Manage_started w cfg Henter) as (prog & _ & HManage).
  destruct (run_any cfg _ evs _ (ready_start _ (config.Backend cfg) HN))
    as (tr & out & Hrun & _ & _ & Hout).
  unfold main. change (daemonNew (with_selected w evs)) with (daemonNew w).
  rewrite Hnew, HManage, Hrun. cbn [fst snd].
  destruct out as [status err| | |st1]; try contradiction.
  - destruct Hout as (-> & pre & s & rest & -> & Hq & ->).
    replace (quiet (pre ++ interrupt s :: rest)) with false; [reflexivity|].
    unfold quiet. rewrite forallb_app. simpl. rewrite andb_false_r. reflexivity.
  - destruct Hout as [_ Hq]. rewrite Hq. reflexivity.
Qed.

(** X12.  The capacity of the buffer is the flush size of the configuration
    file, and 1000 when the file gives 0 or nothing: while no signal
    arrives, every batch [Manage] sends has exactly that many Points, and
    the number of batches is the number of Points received divided by it. *)
Theorem capacity_is_flush_size (w : World) (cfg decoded : config.Configuration)
    (evs : list Event) :
  enters_loop w cfg -> Decode w = inr decoded -> quiet evs = true ->
  let n := if decide (config.FlushSize decoded = 0%Z) then 1000
           else Z.to_nat (config.FlushSize decoded) in
  Forall (fun b => length b = n) (batches (fst (Manage (with_selected w evs)))) /\
  length (batches (fst (Manage (with_selected w evs)))) = length (arrivals evs) / n.
Proof.
  intros Henter HDecode Hq n.
  pose proof (Manage_loop w cfg Henter) as [HN _].
  destruct (Manage_started w cfg Henter) as (prog & _ & HManage).
  assert (Hn : Z.to_nat (config.FlushSize cfg) = n).
  { destruct Henter as [(prog' & decoded' & _ & _ & HDecode' & _ & Hcfg) _].
    rewrite HDecode in HDecode'. inversion HDecode'; subst decoded'.
    rewrite Hcfg. unfold n, effective, defaultFlushSize. simpl.
    destruct (decide (config.FlushSize decoded = 0%Z)); reflexivity. }
  rewrite Hn in HManage, HN.
  pose proof (ready_start n (config.Backend cfg) HN) as Hr.
  destruct (run_quiet_account cfg n evs _ Hr Hq)
    as (tr & st1 & Hrun & Hr1 & Hcons & Hall & _).
  rewrite HManage, Hrun. cbn [fst snd deferred].
  rewrite app_nil_r, batches_app, batches_startup. simpl.
  split; [exact Hall|].
  simpl in Hcons. destruct Hr1 as [Hlen1 Hidx1].
  apply (f_equal length) in Hcons.
  rewrite length_app, length_take_le in Hcons by lia.
  assert (Hsum : length (concat (batches tr)) = n * length (batches tr)).
  { clear Hcons. induction Hall as [|b bs Hb _ IH]; simpl; [lia|].
    rewrite length_app, IH, Hb. lia. }
  apply (Nat.div_unique _ _ _ (bufferindex st1)); lia.
Qed.

(** [Manage] when [make] or [time.NewTicker] panics after the backend is
    initialised. *)
Lemma Manage_panics_after_init (w : World) (cfg : config.Configuration) :
  reaches_init w cfg -> backend.Init (config.Backend cfg) = None ->
  ((config.FlushSize cfg < 0)%Z \/
   (wrap64 (Second * config.Interval cfg) <= 0)%Z) ->
  exists tr,
    existsb polls tr = false /\ batches tr = [] /\
    In (BackendInit None) tr /\ In BackendDisconnect tr /\
    forall evs, Manage (with_selected w evs) = (tr, Panicked).
Proof.
  intros (prog & decoded & HArgs & HOpen & HDecode & Hprof & Hcfg) Hinit Hbad.
  assert (HP : config.Profiling cfg = config.Profiling (defaultFlushSize decoded))
    by (rewrite Hcfg; reflexivity).
  pose (inits := map (fun v => VCenterInit v (config.Metrics cfg)) (config.VCenters cfg)).
  pose (t0 := [Stdlog (StartingDaemon prog)]
                ++ (if config.Profiling cfg
                    then [Stdlog WillWriteProfile; StartCPUProfile None] else [])).
  pose (ds := BackendDisconnect :: (if config.Profiling cfg then [StopCPUProfile] else [])).
  destruct (decide (config.FlushSize cfg < 0)%Z) as [Hneg|Hpos].
  - exists (t0 ++ (inits ++ [BackendInit None; SignalNotify]) ++ ds).
    split; [|split; [|split; [|split]]].
    + unfold t0, ds, inits. rewrite !existsb_app, existsb_polls_inits.
      destruct (config.Profiling cfg); reflexivity.
    + unfold t0, ds, inits. rewrite !batches_app, batches_inits.
      destruct (config.Profiling cfg); reflexivity.
    + rewrite !in_app_iff. right; left; right. simpl. auto.
    + rewrite !in_app_iff. right; right. unfold ds. simpl. auto.
    + intros evs. unfold Manage. simpl Args. simpl Open. simpl Decode.
      rewrite HArgs, HOpen, HDecode.
      change (profiling (with_selected w evs) (defaultFlushSize decoded))
        with (profiling w (defaultFlushSize decoded)).
      rewrite (profiling_passes w _ Hprof).
      change (Getenv (with_selected w evs)) with (Getenv w).
      fold (effective w decoded). rewrite <- Hcfg, <- HP.
      unfold pipeline. rewrite Hinit.
      rewrite decide_True by exact Hneg.
      unfold t0, ds, inits, deferred. rewrite <- !app_assoc. reflexivity.
  - destruct Hbad as [Hneg|Hd]; [contradiction|].
    exists (t0 ++ ((inits ++ [BackendInit None; SignalNotify])
                     ++ [MakeChan (config.FlushSize cfg)]) ++ ds).
    split; [|split; [|split; [|split]]].
    + unfold t0, ds, inits. rewrite !existsb_app, existsb_polls_inits.
      destruct (config.Profiling cfg); reflexivity.
    + unfold t0, ds, inits. rewrite !batches_app, batches_inits.
      destruct (config.Profiling cfg); reflexivity.
    + rewrite !in_app_iff. right; left; left; right. simpl. auto.
    + rewrite !in_app_iff. right; right. unfold ds. simpl. auto.
    + intros evs. unfold Manage. simpl Args. simpl Open. simpl Decode.
      rewrite HArgs, HOpen, HDecode.
      change (profiling (with_selected w evs) (defaultFlushSize decoded))
        with (profiling w (defaultFlushSize decoded)).
      rewrite (profiling_passes w _ Hprof).
      change (Getenv (with_selected w evs)) with (Getenv w).
      fold (effective w decoded). rewrite <- Hcfg, <- HP.
      unfold pipeline. rewrite Hinit.
      rewrite decide_False by exact Hpos.
      rewrite decide_True by exact Hd.
      unfold t0, ds, inits, deferred. rewrite <- !app_assoc. reflexivity.
Qed.

(** X13.  A negative flush size crashes the process once the backend is
    initialised: [make] panics, the deferred [Disconnect] still runs, no
    timer and no query task is started, nothing is sent, and the process
    ends with status 2. *)
Theorem negative_flush_size_panics (w : World) (cfg : config.Configuration) :
  daemonNew w = None -> reaches_init w cfg ->
  backend.Init (config.Backend cfg) = None ->
  (config.FlushSize cfg < 0)%Z ->
  exists tr,
    existsb polls tr = false /\ batches tr = [] /\
    In (BackendInit None) tr /\ In BackendDisconnect tr /\
    forall evs, main (with_selected w evs) = (tr, Exit 2).
Proof.
  intros Hnew Hreach Hinit Hneg.
  destruct (Manage_panics_after_init w cfg Hreach Hinit (or_introl Hneg))
    as (tr & Hp & Hb & Hi & Hd & HManage).
  exists tr. repeat (split; [assumption|]).
  intros evs. unfold main. change (daemonNew (with_selected w evs)) with (daemonNew w).
  rewrite Hnew, HManage. reflexivity.
Qed.

(** X14.  An interval from -9223372036 to 0 seconds crashes the process
    once the backend is initialised: the 64-bit product of the interval by
    [time.Second] does not wrap in that range, so the duration is not
    positive and [time.NewTicker] panics; the deferred [Disconnect] still
    runs, no timer and no query task is started, and the process ends with
    status 2.  (Below -9223372036 the product wraps and the statement says
    nothing.) *)
Theorem non_positive_interval_panics (w : World) (cfg : config.Configuration) :
  daemonNew w = None -> reaches_init w cfg ->
  backend.Init (config.Backend cfg) = None ->
  (-9223372036 <= config.Interval cfg <= 0)%Z ->
  exists tr,
    existsb polls tr = false /\ batches tr = [] /\
    In (BackendInit None) tr /\ In BackendDisconnect tr /\
    forall evs, main (with_selected w evs) = (tr, Exit 2).
Proof.
  intros Hnew Hreach Hinit Hint.
  assert (Hd : (wrap64 (Second * config.Interval cfg) <= 0)%Z).
  { rewrite wrap64_in_range; unfold Second; lia. }
  destruct (Manage_panics_after_init w cfg Hreach Hinit (or_intror Hd))
    as (tr & Hp & Hb & Hi & Hdis & HManage).
  exists tr. repeat (split; [assumption|]).
  intros evs. unfold main. change (daemonNew (with_selected w evs)) with (daemonNew w).
  rewrite Hnew, HManage. reflexivity.
Qed.

(** X15.  A command that is none of the five verbs makes [Manage] return
    the usage line with a nil error, having done nothing: the process
    prints the usage on standard output and exits with status 0, whatever
    the configuration file holds and whatever follows on the command
    line. *)
Theorem unknown_command_prints_usage (w : World) (prog command : string)
    (more : list string) :
  daemonNew w = None -> Args w = prog :: command :: more ->
  command <> "install" -> command <> "remove" -> command <> "start" ->
  command <> "stop" -> command <> "status" ->
  Manage w = ([], Returned usage None) /\
  main w = ([Println usage], Exit 0).
Proof.
  intros Hnew HArgs H1 H2 H3 H4 H5.
  assert (HM : Manage w = ([], Returned usage None)).
  { unfold Manage, dispatch. rewrite HArgs.
    rewrite !decide_False by assumption. reflexivity. }
  split; [exact HM|]. unfold main. rewrite Hnew, HM. reflexivity.
Qed.

(** X16.  With a command on the command line [Manage] only calls the
    service manager.  Each of the five verbs calls the method of its name,
    once, and [Manage] returns the status and the error of that call:
    "install" calls [Install], "remove" [Remove], "start" [Start], "stop"
    [Stop] and "status" [Status].  Whatever the command, at most one call
    is made, all of it to the service manager: the configuration file is
    not read, nothing is logged, and no vCenter, backend, timer or query
    task is touched. *)
Theorem command_skips_pipeline (w : World) (prog command : string)
    (more : list string) :
  Args w = prog :: command :: more ->
  (command = "install" ->
     Manage w = ([ServiceCall "Install"], Returned (fst (Install w)) (snd (Install w)))) /\
  (command = "remove" ->
     Manage w = ([ServiceCall "Remove"], Returned (fst (Remove w)) (snd (Remove w)))) /\
  (command = "start" ->
     Manage w = ([ServiceCall "Start"], Returned (fst (Start w)) (snd (Start w)))) /\
  (command = "stop" ->
     Manage w = ([ServiceCall "Stop"], Returned (fst (Stop w)) (snd (Stop w)))) /\
  (command = "status" ->
     Manage w = ([ServiceCall "Status"], Returned (fst (Status w)) (snd (Status w)))) /\
  length (fst (Manage w)) <= 1 /\
  Forall (fun c => exists m, c = ServiceCall m) (fst (Manage w)) /\
  existsb works (fst (Manage w)) = false /\
  logged (fst (Manage w)) = [].
Proof.
  intros HArgs. unfold Manage. rewrite HArgs. unfold dispatch.
  repeat split;
    try (intros ->; simpl;
         match goal with
         | |- context [Install w] => destruct (Install w)
         | |- context [Remove w] => destruct (Remove w)
         | |- context [Start w] => destruct (Start w)
         | |- context [Stop w] => destruct (Stop w)
         | |- context [Status w] => destruct (Status w)
         end; reflexivity);
    repeat match goal with
           | |- context [decide (command = ?v)] => destruct (decide (command = v))
           end;
    repeat match goal with
           | |- context [let '(_, _) := ?x in _] => destruct x
           end;
    simpl; try lia; try reflexivity; repeat constructor; eauto.
Qed.

(** X17.  A configuration file that cannot be opened or decoded is fatal
    before anything starts: after the "Starting daemon" line [Manage]
    returns the matching status with the error, and [main] logs both on the
    error log and exits with status 1; no vCenter or backend is
    initialised. *)
Theorem config_failure_is_fatal (w : World) (prog status err : string) :
  daemonNew w = None -> Args w = [prog] ->
  (Open w = Some err /\ status = "Could not open configuration file") \/
  (Open w = None /\ Decode w = inl err /\
   status = "Could not decode configuration file") ->
  main w =
    ([Stdlog (StartingDaemon prog); Errlog (ErrorLine (Some status) err)], Exit 1).
Proof.
  intros Hnew HArgs [[HOpen ->]|(HOpen & HDecode & ->)]; unfold main, Manage;
    rewrite Hnew, HArgs, HOpen; [reflexivity|].
  rewrite HDecode. reflexivity.
Qed.

(** X18.  When profiling is on and the temporary file cannot be created,
    the process does not reach its "could not create CPU profile" exit:
    [f] is nil, [f.Name()] panics first, and the process ends with status 2
    having logged only the "Starting daemon" line. *)
Theorem tempfile_failure_panics (w : World) (prog err : string)
    (decoded : config.Configuration) :
  daemonNew w = None -> Args w = [prog] -> Open w = None ->
  Decode w = inr decoded -> config.Profiling decoded = true ->
  TempFile w = Some err ->
  main w = ([Stdlog (StartingDaemon prog)], Exit 2).
Proof.
  intros Hnew HArgs HOpen HDecode Hprof Htemp.
  unfold main, Manage. rewrite Hnew, HArgs, HOpen, HDecode.
  unfold profiling.
  replace (config.Profiling (defaultFlushSize decoded)) with true
    by (unfold defaultFlushSize; destruct (decide _); simpl; congruence).
  rewrite Htemp. reflexivity.
Qed.

(** X19.  When profiling is on and the CPU profile cannot be started, the
    process exits with status 1 through [log.Fatal], after the attempt and
    the fatal line and before any vCenter or backend is initialised; no
    deferred call runs. *)
Theorem profile_start_failure_is_fatal (w : World) (prog err : string)
    (decoded : config.Configuration) :
  daemonNew w = None -> Args w = [prog] -> Open w = None ->
  Decode w = inr decoded -> config.Profiling decoded = true ->
  TempFile w = None -> StartProfile w = Some err ->
  main w =
    ([Stdlog (StartingDaemon prog); Stdlog WillWriteProfile;
      StartCPUProfile (Some err);
      Errlog (FatalLine "could not start CPU profile: " err)],
     Exit 1).
Proof.
  intros Hnew HArgs HOpen HDecode Hprof Htemp Hstart.
  unfold main, Manage. rewrite Hnew, HArgs, HOpen, HDecode.
  unfold profiling.
  replace (config.Profiling (defaultFlushSize decoded)) with true
    by (unfold defaultFlushSize; destruct (decide _); simpl; congruence).
  rewrite Htemp, Hstart. reflexivity.
Qed.

(** * Instances of the further properties *)

Lemma ready_one_stored : ready 3 one_stored.
Proof. split; simpl; lia. Defined.

Lemma dispatch_is_fifo_witness :
  exists tr st1,
    run cfg3 one_stored [metrics (pt 2); metrics (pt 3); ticker; metrics (pt 4)]
      = (tr, Waiting st1) /\
    concat (batches tr) ++ take (bufferindex st1) (pointbuffer st1) =
      [pt 1; pt 2; pt 3; pt 4] /\
    Forall (fun b => length b = 3) (batches tr).
Proof.
  apply (dispatch_is_fifo cfg3 3 one_stored
           [metrics (pt 2); metrics (pt 3); ticker; metrics (pt 4)]).
  - exact ready_one_stored.
  - reflexivity.
Defined.

Lemma batch_count_and_cursor_witness :
  exists tr st1,
    run cfg3 one_stored
        [metrics (pt 2); metrics (pt 3); metrics (pt 4); metrics (pt 5);
         metrics (pt 6); memtimer 1; metrics (pt 7); metrics (pt 8)]
      = (tr, Waiting st1) /\
    length (batches tr) = (1 + 7) / 3 /\
    bufferindex st1 = (1 + 7) mod 3.
Proof.
  apply (batch_count_and_cursor cfg3 3 one_stored
           [metrics (pt 2); metrics (pt 3); metrics (pt 4); metrics (pt 5);
            metrics (pt 6); memtimer 1; metrics (pt 7); metrics (pt 8)]).
  - exact ready_one_stored.
  - reflexivity.
Defined.

Lemma shutdown_delivers_all_witness :
  exists tr,
    (forall rest,
       run cfg3 one_stored
           ([metrics (pt 2); metrics (pt 3); metrics (pt 4)] ++ interrupt os_Interrupt :: rest)
         = (tr, Returned "Daemon was interrupted by system signal" None)) /\
    concat (batches tr) = [pt 1; pt 2; pt 3; pt 4].
Proof.
  apply (shutdown_delivers_all cfg3 3 one_stored
           [metrics (pt 2); metrics (pt 3); metrics (pt 4)] os_Interrupt).
  - exact ready_one_stored.
  - reflexivity.
Defined.

Lemma sent_lines_match_batches_witness :
  sent_counts (fst (run cfg3 one_stored
                      [metrics (pt 2); metrics (pt 3); metrics (pt 4); interrupt os_Kill]))
  = map length (batches (fst (run cfg3 one_stored
                      [metrics (pt 2); metrics (pt 3); metrics (pt 4); interrupt os_Kill]))).
Proof.
  apply (sent_lines_match_batches cfg3 3 one_stored
           [metrics (pt 2); metrics (pt 3); metrics (pt 4); interrupt os_Kill]).
  exact ready_one_stored.
Defined.

Lemma batches_within_capacity_witness :
  Forall (fun b => 0 < length b <= 3)
    (batches (fst (run cfg3 one_stored
                     [metrics (pt 2); metrics (pt 3); metrics (pt 4); interrupt os_Kill]))).
Proof.
  apply (batches_within_capacity cfg3 3 one_stored
           [metrics (pt 2); metrics (pt 3); metrics (pt 4); interrupt os_Kill]).
  exact ready_one_stored.
Defined.

Lemma loop_ends_only_on_signal_witness :
  exists pre s rest,
    [metrics (pt 2); interrupt SIGTERM; metrics (pt 3); interrupt os_Interrupt]
      = pre ++ interrupt s :: rest /\
    quiet pre = true /\
    snd (run cfg3 one_stored
           [metrics (pt 2); interrupt SIGTERM; metrics (pt 3); interrupt os_Interrupt])
      = Returned (status_of s) None.
Proof.
  apply (loop_ends_only_on_signal cfg3 3 one_stored
           [metrics (pt 2); interrupt SIGTERM; metrics (pt 3); interrupt os_Interrupt]).
  exact ready_one_stored.
Defined.

Lemma free_slots_are_zero_witness : pointbuffer one_stored !! 2 = Some backend.zero.
Proof.
  apply (free_slots_are_zero cfg3 3 graphite one_stored 2).
  - lia.
  - apply (reachable_step cfg3 3 graphite (start 3 graphite) _ (metrics (pt 1)) []).
    + apply reachable_start.
    + reflexivity.
  - simpl. lia.
  - lia.
Defined.

Lemma backend_answers_are_ignored_witness :
  batches (fst (run cfg3 two_stored_flaky [metrics (pt 3); metrics (pt 4); interrupt SIGTERM]))
    = batches (fst (run cfg3 (mkLoop [pt 1; pt 2; backend.zero] 2 graphite)
                      [metrics (pt 3); metrics (pt 4); interrupt SIGTERM])) /\
  sent_counts (fst (run cfg3 two_stored_flaky [metrics (pt 3); metrics (pt 4); interrupt SIGTERM]))
    = sent_counts (fst (run cfg3 (mkLoop [pt 1; pt 2; backend.zero] 2 graphite)
                          [metrics (pt 3); metrics (pt 4); interrupt SIGTERM])) /\
  queries (fst (run cfg3 two_stored_flaky [metrics (pt 3); metrics (pt 4); interrupt SIGTERM]))
    = queries (fst (run cfg3 (mkLoop [pt 1; pt 2; backend.zero] 2 graphite)
                      [metrics (pt 3); metrics (pt 4); interrupt SIGTERM])) /\
  same_outcome
    (snd (run cfg3 two_stored_flaky [metrics (pt 3); metrics (pt 4); interrupt SIGTERM]))
    (snd (run cfg3 (mkLoop [pt 1; pt 2; backend.zero] 2 graphite)
            [metrics (pt 3); metrics (pt 4); interrupt SIGTERM])).
Proof.
  apply (backend_answers_are_ignored cfg3 two_stored_flaky
           (mkLoop [pt 1; pt 2; backend.zero] 2 graphite)
           [metrics (pt 3); metrics (pt 4); interrupt SIGTERM]).
  split; reflexivity.
Defined.

Lemma one_query_round_per_tick_witness :
  queries (fst (Manage (with_selected (world3 [])
                          [metrics (pt 1); ticker; memtimer 7; ticker])))
    = [vc1; vc1; vc1].
Proof.
  apply (one_query_round_per_tick (world3 []) cfg3
           [metrics (pt 1); ticker; memtimer 7; ticker]).
  - apply enters_loop_world3.
  - reflexivity.
Defined.

Lemma shutdown_sends_before_cleanup_witness :
  exists body,
    (forall rest,
       Manage (with_selected (world3 [])
                 ([metrics (pt 1); metrics (pt 2); metrics (pt 3); metrics (pt 4)]
                    ++ interrupt SIGTERM :: rest)) =
         (body ++ [StopTicker the_memtimer; StopTicker the_ticker; BackendDisconnect],
          Returned "Daemon was killed" None)) /\
    concat (batches body) = [pt 1; pt 2; pt 3; pt 4] /\
    existsb works [StopTicker the_memtimer; StopTicker the_ticker; BackendDisconnect]
      = false.
Proof.
  apply (shutdown_sends_before_cleanup (world3 []) cfg3
           [metrics (pt 1); metrics (pt 2); metrics (pt 3); metrics (pt 4)] SIGTERM).
  - apply enters_loop_world3.
  - reflexivity.
Defined.

Lemma exits_only_on_signal_witness :
  snd (main (with_selected (world3 [])
               [metrics (pt 1); ticker; metrics (pt 2); interrupt SIGTERM; metrics (pt 3)]))
    = Exit 0.
Proof.
  apply (exits_only_on_signal (world3 []) cfg3
           [metrics (pt 1); ticker; metrics (pt 2); interrupt SIGTERM; metrics (pt 3)]).
  - reflexivity.
  - apply enters_loop_world3.
  - reflexivity.
Defined.

Lemma enters_loop_default :
  enters_loop (a_world ["vsphere-graphite"] (config.withFlushSize cfg3 0) [])
    (config.withFlushSize cfg3 1000).
Proof.
  split; [|repeat split; vm_compute; congruence].
  exists "vsphere-graphite", (config.withFlushSize cfg3 0). repeat split.
Defined.

Lemma capacity_is_flush_size_witness :
  Forall (fun b => length b = 1000)
    (batches (fst (Manage (with_selected
                             (a_world ["vsphere-graphite"] (config.withFlushSize cfg3 0) [])
                             thousand_and_one)))) /\
  length (batches (fst (Manage (with_selected
                             (a_world ["vsphere-graphite"] (config.withFlushSize cfg3 0) [])
                             thousand_and_one)))) = 1.
Proof.
  destruct (capacity_is_flush_size
              (a_world ["vsphere-graphite"] (config.withFlushSize cfg3 0) [])
              (config.withFlushSize cfg3 1000) (config.withFlushSize cfg3 0)
              thousand_and_one enters_loop_default eq_refl eq_refl) as [Hall Hcount].
  split; [exact Hall|]. rewrite Hcount. vm_compute. reflexivity.
Defined.

Lemma negative_flush_size_panics_witness :
  exists tr,
    existsb polls tr = false /\ batches tr = [] /\
    In (BackendInit None) tr /\ In BackendDisconnect tr /\
    forall evs,
      main (with_selected
              (a_world ["vsphere-graphite"] (config.withFlushSize cfg3 (-5)) []) evs)
        = (tr, Exit 2).
Proof.
  apply (negative_flush_size_panics
           (a_world ["vsphere-graphite"] (config.withFlushSize cfg3 (-5)) [])
           (config.withFlushSize cfg3 (-5))).
  - reflexivity.
  - exists "vsphere-graphite", (config.withFlushSize cfg3 (-5)). repeat split.
  - reflexivity.
  - simpl. lia.
Defined.

Lemma non_positive_interval_panics_witness :
  exists tr,
    existsb polls tr = false /\ batches tr = [] /\
    In (BackendInit None) tr /\ In BackendDisconnect tr /\
    forall evs,
      main (with_selected (a_world ["vsphere-graphite"] (cfg_interval 0) []) evs)
        = (tr, Exit 2).
Proof.
  apply (non_positive_interval_panics
           (a_world ["vsphere-graphite"] (cfg_interval 0) []) (cfg_interval 0)).
  - reflexivity.
  - exists "vsphere-graphite", (cfg_interval 0). repeat split.
  - reflexivity.
  - simpl. lia.
Defined.

Lemma unknown_command_prints_usage_witness :
  Manage (a_world ["vsphere-graphite"; "restart"; "now"] cfg3 []) =
    ([], Returned usage None) /\
  main (a_world ["vsphere-graphite"; "restart"; "now"] cfg3 []) =
    ([Println usage], Exit 0).
Proof.
  apply (unknown_command_prints_usage
           (a_world ["vsphere-graphite"; "restart"; "now"] cfg3 [])
           "vsphere-graphite" "restart" ["now"]);
    [reflexivity | reflexivity | discriminate | discriminate | discriminate
     | discriminate | discriminate].
Defined.

Lemma command_skips_pipeline_witness :
  Manage (a_world ["vsphere-graphite"; "status"] cfg3 [metrics (pt 1)]) =
    ([ServiceCall "Status"],
     Returned "Service is stopped" (Some "Service is stopped")).
Proof.
  destruct (command_skips_pipeline
              (a_world ["vsphere-graphite"; "status"] cfg3 [metrics (pt 1)])
              "vsphere-graphite" "status" [] eq_refl)
    as (_ & _ & _ & _ & Hstatus & _).
  exact (Hstatus eq_refl).
Defined.

Lemma config_failure_is_fatal_witness :
  main (world_failing None (inl "unexpected end of JSON input") None None) =
    ([Stdlog (StartingDaemon "vsphere-graphite");
      Errlog (ErrorLine (Some "Could not decode configuration file")
                "unexpected end of JSON input")],
     Exit 1).
Proof.
  apply (config_failure_is_fatal
           (world_failing None (inl "unexpected end of JSON input") None None)
           "vsphere-graphite" "Could not decode configuration file"
           "unexpected end of JSON input").
  - reflexivity.
  - reflexivity.
  - right. repeat split.
Defined.

Lemma tempfile_failure_panics_witness :
  main (world_failing None (inr cfg_profiling) (Some "permission denied") None) =
    ([Stdlog (StartingDaemon "vsphere-graphite")], Exit 2).
Proof.
  apply (tempfile_failure_panics
           (world_failing None (inr cfg_profiling) (Some "permission denied") None)
           "vsphere-graphite" "permission denied" cfg_profiling);
    reflexivity.
Defined.

Lemma profile_start_failure_is_fatal_witness :
  main (world_failing None (inr cfg_profiling) None
          (Some "cpu profiling already in use")) =
    ([Stdlog (StartingDaemon "vsphere-graphite"); Stdlog WillWriteProfile;
      StartCPUProfile (Some "cpu profiling already in use");
      Errlog (FatalLine "could not start CPU profile: " "cpu profiling already in use")],
     Exit 1).
Proof.
  apply (profile_start_failure_is_fatal
           (world_failing None (inr cfg_profiling) None
              (Some "cpu profiling already in use"))
           "vsphere-graphite" "cpu profiling already in use" cfg_profiling);
    reflexivity.
Defined.

Lemma timers_app (t1 t2 : list Call) : timers (t1 ++ t2) = timers t1 ++ timers t2.
Proof.
  induction t1 as [|c t1 IH]; [reflexivity|].
  destruct c; simpl; rewrite IH; reflexivity.
Qed.

Lemma timers_retrieve (cfg : config.Configuration) : timers (retrieve cfg) = [].
Proof.
  unfold retrieve. simpl. induction (config.VCenters cfg) as [|v vs IH];
    [reflexivity | exact IH].
Qed.

Lemma timers_inits (ms : list string) (vs : list vsphere.VCenter) :
  timers (map (fun v => VCenterInit v ms) vs) = [].
Proof. induction vs as [|v vs IH]; [reflexivity | exact IH]. Qed.

(** No iteration of the loop creates a timer. *)
Lemma timers_step (cfg : config.Configuration) (st : Loop) (ev : Event) :
  timers (fst (step cfg st ev)) = [].
Proof.
  destruct ev as [p| |Sys|s]; unfold step.
  - destruct (decide _); [|reflexivity].
    destruct (decide _); [|reflexivity].
    destruct (backend.SendMetrics _ _); reflexivity.
  - apply timers_retrieve.
  - reflexivity.
  - destruct (decide _); [|reflexivity].
    destruct (decide _); [|reflexivity].
    destruct (backend.SendMetrics _ _); reflexivity.
Qed.

Lemma timers_run (cfg : config.Configuration) (evs : list Event) (st : Loop) :
  timers (fst (run cfg st evs)) = [].
Proof.
  revert st. induction evs as [|ev evs IH]; intros st; [reflexivity|].
  rewrite run_cons. pose proof (timers_step cfg st ev) as Hstep.
  destruct (step cfg st ev) as [tr [st'| |]]; simpl in Hstep; try exact Hstep.
  specialize (IH st'). destruct (run cfg st' evs) as [tr' out]. simpl in IH |- *.
  rewrite timers_app, Hstep, IH. reflexivity.
Qed.

(** X20.  [Manage] creates exactly two timers, once, before its first
    [select]: the ticker and the memtimer, both with the configured
    interval in seconds as their period.  No event makes it create another,
    so the memory report runs at the polling cadence. *)
Theorem two_timers_same_period (w : World) (cfg : config.Configuration)
    (evs : list Event) :
  enters_loop w cfg ->
  (1 <= config.Interval cfg <= 9223372036)%Z ->
  timers (fst (Manage (with_selected w evs))) =
    [(the_ticker, (config.Interval cfg * 1000000000)%Z);
     (the_memtimer, (config.Interval cfg * 1000000000)%Z)].
Proof.
  intros Henter Hint.
  destruct (Manage_started w cfg Henter) as (prog & _ & HManage).
  rewrite HManage. cbn [fst].
  rewrite !timers_app, timers_run.
  assert (Hdef : timers (deferred
                    (snd (run cfg (start (Z.to_nat (config.FlushSize cfg))
                                     (config.Backend cfg)) evs))
                    (cleanup cfg)) = []).
  { unfold deferred, cleanup.
    destruct (snd (run cfg _ evs)); destruct (config.Profiling cfg); reflexivity. }
  rewrite Hdef. unfold startup.
  rewrite !timers_app, timers_inits, timers_retrieve.
  rewrite wrap64_in_range by (unfold Second; lia).
  unfold Second. rewrite (Z.mul_comm 1000000000).
  destruct (config.Profiling cfg); reflexivity.
Qed.

Lemma two_timers_same_period_witness :
  timers (fst (Manage (with_selected (world3 []) [ticker; metrics (pt 1); memtimer 9]))) =
    [(the_ticker, 60000000000%Z); (the_memtimer, 60000000000%Z)].
Proof.
  apply (two_timers_same_period (world3 []) cfg3 [ticker; metrics (pt 1); memtimer 9]).
  - apply enters_loop_world3.
  - simpl. lia.
Defined.

(** * Signals as the operating system delivers them *)

(** C10 as it is worded fails for kill: two Points are in the buffer when
    [os.Kill] is sent; the process is killed where it stands, it does
    not end with status 0, it prints no status, and the two Points are never
    sent. *)
Lemma C10_kill_is_not_exit_zero :
  snd (signalled (world3 []) [metrics (pt 1); metrics (pt 2)] os_Kill [])
    = Killed os_Kill /\
  snd (signalled (world3 []) [metrics (pt 1); metrics (pt 2)] os_Kill [])
    <> Finished (Exit 0) /\
  batches (fst (signalled (world3 []) [metrics (pt 1); metrics (pt 2)] os_Kill [])) = [] /\
  ~ In (Println (status_of os_Kill))
       (fst (signalled (world3 []) [metrics (pt 1); metrics (pt 2)] os_Kill [])).
Proof.
  repeat split; try discriminate.
  vm_compute. intros H.
  repeat (destruct H as [H|H]; [discriminate H|]). exact H.
Qed.

(** C10 (exit code of a signal-driven shutdown), amended.  After a
    successful start-up, a signal that reaches the program, [os.Interrupt]
    or [SIGTERM], makes [Manage] return a nil error; [main] prints the
    returned status on standard output and the process ends with status 0.
    [os.Kill], though registered, never reaches the program: the process is
    killed where it stands, its trace being the start-up calls and what the
    loop had done; [Manage] does not return, no status is printed, no
    deferred call runs, and the Points still in the buffer are not sent. *)
Theorem C10_signal_exit_code (w : World) (cfg : config.Configuration)
    (pre : list Event) (s : Signal) (rest : list Event) :
  daemonNew w = None -> enters_loop w cfg -> quiet pre = true ->
  if catchable s
  then exists tr,
         Manage (with_selected w (pre ++ interrupt s :: rest)) =
           (tr, Returned (status_of s) None) /\
         signalled w pre s rest = (tr ++ [Println (status_of s)], Finished (Exit 0))
  else exists prog tr st1,
         Args w = [prog] /\
         run cfg (start (Z.to_nat (config.FlushSize cfg)) (config.Backend cfg)) pre
           = (tr, Waiting st1) /\
         signalled w pre s rest = (startup prog cfg ++ tr, Killed s) /\
         concat (batches tr) ++ take (bufferindex st1) (pointbuffer st1) = arrivals pre.
Proof.
  intros Hnew Henter Hq. unfold signalled.
  destruct (catchable s).
  - destruct (main_on_signal w cfg pre s rest Hnew Henter Hq) as (tr & HManage & Hmain).
    exists tr. split; [exact HManage|]. rewrite Hmain. reflexivity.
  - pose proof (Manage_loop w cfg Henter) as [HN _].
    destruct (Manage_started w cfg Henter) as (prog & HArgs & HManage).
    destruct (run_quiet_account cfg _ pre _ (ready_start _ (config.Backend cfg) HN) Hq)
      as (tr & st1 & Hrun & _ & Hcons & _).
    exists prog, tr, st1. split; [exact HArgs|]. split; [exact Hrun|].
    split; [|exact Hcons].
    unfold main. change (daemonNew (with_selected w pre)) with (daemonNew w).
    rewrite Hnew, HManage, Hrun. cbn [fst snd deferred].
    rewrite app_nil_r. reflexivity.
Qed.

Lemma C10_signal_exit_code_witness :
  exists tr,
    Manage (with_selected (world3 [])
              ([metrics (pt 1); metrics (pt 2)] ++ interrupt SIGTERM :: [metrics (pt 3)])) =
      (tr, Returned "Daemon was killed" None) /\
    signalled (world3 []) [metrics (pt 1); metrics (pt 2)] SIGTERM [metrics (pt 3)] =
      (tr ++ [Println "Daemon was killed"], Finished (Exit 0)).
Proof.
  apply (C10_signal_exit_code (world3 []) cfg3
           [metrics (pt 1); metrics (pt 2)] SIGTERM [metrics (pt 3)]).
  - reflexivity.
  - apply enters_loop_world3.
  - reflexivity.
Defined.
